(** * Downapi: the download-and-transcode route handler

    A shallow embedding of the Express route [GET /:quality/id=:id] of the
    repository, in its three revisions:

    - [RevIndex]       src/index.js (one extraction/transcode attempt, a
                       disconnect handler);
    - [RevDockerfile]  the handler stored in src/Dockerfile (format
                       fallbacks, optional cookies); the copy of the
                       src/index.js code that follows it in that file
                       registers its handler second for the same route,
                       where it never answers, and declares
                       [fetchMetadata] once more: of the two function
                       declarations of one script the later is the one in
                       force, for the first handler too;
    - [RevPart002]     src/unnamed/part_002 (the same with one more
                       extractor argument and reworded advice).

    Strings.  A JavaScript string is modelled by a Rocq [string], one 8-bit
    character per unit.  Every test the handler performs on text (the
    quality names, the video-ID alphabet, the ['http'] prefix, the advice
    patterns) lives in the ASCII range, which is modelled exactly;
    characters above 127 are carried through unchanged.

    Buffers.  What a child process prints arrives in chunks of bytes
    ([Buffer]s), modelled by the string of their bytes; the listeners turn
    each chunk into text on its own with [toString()].

    External code.  [sanitize] (the sanitize-filename package),
    [JSON.parse], [path.join] and [Buffer.prototype.toString] are not part
    of the repository: they are parameters of the model, gathered in
    [platform].  So is the matching of a request path against the route
    pattern by Express, which [route] writes out. *)

From Stdlib Require Import ZArith Strings.String Strings.Ascii.
From Stdlib Require Import Numbers.DecimalString Lists.List.
From Stdlib Require Import Numbers.DecimalZ Numbers.DecimalPos.
From stdpp Require Import gmap strings list.

Import ListNotations.
Open Scope string_scope.

(** ** JavaScript primitives used by the handler *)

Module Js.

Definition is_upper (c : ascii) : bool :=
  let n := nat_of_ascii c in (65 <=? n)%nat && (n <=? 90)%nat.

Definition lower_char (c : ascii) : ascii :=
  if is_upper c then ascii_of_nat (nat_of_ascii c + 32) else c.

(** [String.prototype.toLowerCase] on the ASCII range. *)
Fixpoint toLowerCase (s : string) : string :=
  match s with
  | EmptyString => EmptyString
  | String c s' => String (lower_char c) (toLowerCase s')
  end.

(** [s.startsWith(p)] *)
Definition startsWith (s p : string) : bool := String.prefix p s.

(** [s.slice(0, n)] *)
Definition slice0 (n : nat) (s : string) : string := substring 0 n s.

(** Truthiness of a string value: only [''] is falsy. *)
Definition truthy (s : string) : bool := negb (String.eqb s "").

(** [v || d] for a possibly undefined string [v]. *)
Definition or_else (v : option string) (d : string) : string :=
  match v with
  | Some s => if truthy s then s else d
  | None => d
  end.

(** [!v] for a possibly undefined string [v]. *)
Definition falsy (v : option string) : bool :=
  match v with
  | Some s => negb (truthy s)
  | None => true
  end.

(** [arr.includes(s)] *)
Definition includes (arr : list string) (s : string) : bool :=
  existsb (String.eqb s) arr.

(** Template interpolation of an integer number. *)
Definition of_number (z : Z) : string :=
  NilZero.string_of_int (Z.to_int z).

(** Template interpolation of an exit code, [null] when the process was
    ended by a signal. *)
Definition of_code (code : option Z) : string :=
  match code with
  | Some z => of_number z
  | None => "null"
  end.

(** [code === 0] *)
Definition is_zero (code : option Z) : bool :=
  match code with
  | Some z => (z =? 0)%Z
  | None => false
  end.

(** Does [p] occur in [s]?  ([p] non-empty in every use.) *)
Fixpoint contains (p s : string) : bool :=
  String.prefix p s ||
  match s with
  | EmptyString => false
  | String _ s' => contains p s'
  end.

(** [/p/i.test(s)] for a literal pattern [p]. *)
Definition test_ci (p s : string) : bool :=
  contains (toLowerCase p) (toLowerCase s).

(** Values produced by [JSON.parse]. *)
#[warnings="-register-all"] Inductive json : Type :=
| JNull
| JBool (b : bool)
| JNum (n : Z)
| JStr (s : string)
| JArr (items : list json)
| JObj (fields : list (string * json)).

(** Truthiness of a parsed value ([null] also stands for a promise
    resolved with [null]). *)
Definition json_truthy (v : json) : bool :=
  match v with
  | JNull => false
  | JBool b => b
  | JNum n => negb (n =? 0)%Z
  | JStr s => truthy s
  | JArr _ | JObj _ => true
  end.

Fixpoint assoc (k : string) (fields : list (string * json)) : option json :=
  match fields with
  | [] => None
  | (k', v) :: rest => if String.eqb k k' then Some v else assoc k rest
  end.

(** [v.title]: the property of an object, [undefined] ([None]) on every
    other truthy value. *)
Definition get_title (v : json) : option json :=
  match v with
  | JObj fields => assoc "title" fields
  | _ => None
  end.

End Js.

(** ** What the handler takes from outside the repository *)

Record platform := {
  sanitize : string -> string;            (* sanitize-filename, on strings *)
  JSON_parse : string -> option Js.json;  (* [None]: SyntaxError thrown *)
  path_join : string -> string -> string;
  dirname : string;                       (* __dirname *)
  Buffer_toString : string -> string      (* one chunk decoded as UTF-8 *)
}.

(** [process.env] as far as the handler reads it. *)
Record environment := {
  USE_COOKIES : option string;
  COOKIES_FILE : option string
}.

Inductive revision := RevIndex | RevDockerfile | RevPart002.

Definition ONE_HOUR_MS : Z := 60 * 60 * 1000.

(** ** Quality tier *)

Definition qualityMap : gmap string string :=
  {[ "low" := "64k"; "medium" := "128k"; "high" := "320k" ]}.

Definition rawQuality (quality : option string) : string :=
  Js.toLowerCase (Js.or_else quality "high").

Definition qualityKey (quality : option string) : string :=
  if Js.includes ["low"; "medium"; "high"] (rawQuality quality)
  then rawQuality quality else "high".

(** [qualityMap[qualityKey]]; [None] would be [undefined]. *)
Definition bitrate (quality : option string) : option string :=
  qualityMap !! qualityKey quality.

(** ** Source resolution *)

Definition is_id_char (c : ascii) : bool :=
  let n := nat_of_ascii c in
  ((97 <=? n)%nat && (n <=? 122)%nat)       (* a-z *)
  || ((65 <=? n)%nat && (n <=? 90)%nat)     (* A-Z *)
  || ((48 <=? n)%nat && (n <=? 57)%nat)     (* 0-9 *)
  || (n =? 95)%nat                          (* _ *)
  || (n =? 45)%nat.                         (* - *)

(** [/^[a-zA-Z0-9_-]{11}$/.test(s)] *)
Definition is_video_id (s : string) : bool :=
  (String.length s =? 11)%nat && forallb is_id_char (list_ascii_of_string s).

Definition watch_url (idParam : string) : string :=
  "https://www.youtube.com/watch?v=" +:+ idParam.

Definition videoUrl (idParam : string) : string :=
  if is_video_id idParam then watch_url idParam
  else if Js.startsWith idParam "http" then idParam
  else watch_url idParam.

(** ** The world outside the handler *)

(** The file system as the handler sees it (which paths exist) and the
    clock read by [Date.now()]. *)
Record world := {
  fs : gset string;
  now : Z
}.

(** [fs.existsSync(p)] *)
Definition existsSync (p : string) (w : world) : bool :=
  bool_decide (p ∈ fs w).

(** [fs.unlinkSync(p)]; [None] when it throws (no such file).  The file
    system of the model has no permissions and no busy files: unlinking a
    path that exists succeeds. *)
Definition unlinkSync (p : string) (w : world) : option world :=
  if existsSync p w
  then Some {| fs := fs w ∖ {[ p ]}; now := now w |}
  else None.

(** [try { if (fs.existsSync(p)) fs.unlinkSync(p); } catch(e){}] *)
Definition cleanup (p : string) (w : world) : world :=
  if existsSync p w then
    match unlinkSync p w with
    | Some w' => w'
    | None => w
    end
  else w.

Inductive child := Extractor | Transcoder.

(** What the handler does to the outside. *)
Inductive effect :=
| Spawn (cmd : string) (args : list string)
| Kill (p : child) (signal : string)
| Respond (status : Z) (body : string)        (* res.status(..).send(..) *)
| Download (path : string) (name : option string)   (* res.download(..) *)
| SetTimeout (ms : Z) (unlink_path : string). (* scheduleDelete *)

(** How a [res.download] ends; [headersSent] is read by the callback of
    src/index.js. *)
Inductive download_result :=
| Sent
| SendFailed (headersSent : bool).

(** What happens to the handler.  The stderr, error and close events of
    the extractor and the transcoder are those of the attempt in flight:
    what the extractor of an earlier attempt still prints goes to a buffer
    that has been read already, and is no event here. *)
Inductive event :=
| MetaData (chunk : string)         (* a Buffer from the stdout of the
                                       metadata process *)
| MetaClose (code : option Z)
| MetaError (msg : string)          (* 'error': the spawn failed *)
| YtdlStderr (d : string)           (* a Buffer from a stderr *)
| YtdlError (msg : string)
| FfmpegStderr (d : string)
| FfmpegError (msg : string)
| FfmpegClose (code : option Z)
| ReqClose                          (* the caller disconnected *)
| DownloadDone (r : download_result)
| FileWritten (p : string)          (* a child process created [p] *)
| ClockTick (t : Z).

(** What an event changes outside the handler: a file appears, time
    passes. *)
Definition observe (w : world) (e : event) : world :=
  match e with
  | FileWritten p => {| fs := {[ p ]} ∪ fs w; now := now w |}
  | ClockTick t => {| fs := fs w; now := t |}
  | _ => w
  end.

(** ** Metadata fetcher *)

Inductive promise :=
| Pending
| Resolved (v : Js.json)
| Rejected (err : string).

(** A promise is settled once; later calls of [resolve]/[reject] are
    ignored. *)
Definition settle (p r : promise) : promise :=
  match p with
  | Pending => r
  | _ => p
  end.

Record fetch_state := {
  out : string;
  result : promise
}.

Definition fetch_init : fetch_state := {| out := ""; result := Pending |}.

Definition has_fallback (rev : revision) : bool :=
  match rev with
  | RevIndex => false
  | RevDockerfile | RevPart002 => true
  end.

(** Does the ['error'] listener of the [fetchMetadata] in force reject?
    src/index.js: [reject(err)] (line 86).  src/unnamed/part_002:
    [resolve(null)] (line 94).  src/Dockerfile declares the function twice,
    with [resolve(null)] at line 109 and with [reject(err)] at line 310:
    the later declaration is the one every call reaches. *)
Definition fetch_rejects (rev : revision) : bool :=
  match rev with
  | RevIndex | RevDockerfile => true
  | RevPart002 => false
  end.

Section Handler.

Variable P : platform.
Variable E : environment.

(** The three listeners of [fetchMetadata].  [out += chunk.toString()]:
    every chunk is decoded by itself before it is appended. *)
Definition fetch_on_data (st : fetch_state) (chunk : string) : fetch_state :=
  {| out := out st +:+ Buffer_toString P chunk; result := result st |}.

Definition fetch_on_close (st : fetch_state) (code : option Z) : fetch_state :=
  let r :=
    if Js.is_zero code && Js.truthy (out st) then
      match JSON_parse P (out st) with
      | Some j => Resolved j
      | None => Resolved Js.JNull
      end
    else Resolved Js.JNull in
  {| out := out st; result := settle (result st) r |}.

Definition fetch_on_error (rev : revision) (st : fetch_state) (msg : string)
  : fetch_state :=
  let r := if fetch_rejects rev then Rejected msg else Resolved Js.JNull in
  {| out := out st; result := settle (result st) r |}.

Definition fetch_step (rev : revision) (st : fetch_state) (e : event)
  : fetch_state :=
  match e with
  | MetaData chunk => fetch_on_data st chunk
  | MetaClose code => fetch_on_close st code
  | MetaError msg => fetch_on_error rev st msg
  | _ => st
  end.

(** [fetchMetadata] against the events of its process. *)
Definition fetchMetadata (rev : revision) (evs : list event) : promise :=
  result (fold_left (fetch_step rev) evs fetch_init).

(** ** File name *)

(** [sanitize(v)] on any value: the package throws on a non-string. *)
Definition sanitize_value (v : Js.json) : option string :=
  match v with
  | Js.JStr s => Some (sanitize P s)
  | _ => None
  end.

(** The [try { const meta = await fetchMetadata(..); .. } catch(e) { .. }]
    block: the value of [safeTitle] after it, [None] for [null]. *)
Definition safeTitle (settled : promise) : option string :=
  match settled with
  | Resolved meta =>
      if Js.json_truthy meta then
        match Js.get_title meta with
        | Some t =>
            if Js.json_truthy t then
              match sanitize_value t with
              | Some s => Some (Js.slice0 120 s)
              | None => None
              end
            else None
        | None => None
        end
      else None
  | Rejected _ => None
  | Pending => None
  end.

Definition base (title : option string) (idParam : string) : string :=
  let fallback :=
    if is_video_id idParam then idParam
    else Js.slice0 40 (sanitize P idParam) in
  match title with
  | Some t => if Js.truthy t then t else fallback
  | None => fallback
  end.

Definition filename (title : option string) (idParam : string)
    (quality : option string) (ts : Z) : string :=
  base title idParam +:+ "-" +:+ qualityKey quality +:+ "-"
    +:+ Js.of_number ts +:+ ".mp3".

Definition DOWNLOAD_DIR : string := path_join P (dirname P) "downloads".

Definition filePath (name : string) : string := path_join P DOWNLOAD_DIR name.

(** ** Child process arguments *)

Definition nl : string := String (ascii_of_nat 10) EmptyString.

Definition formatsToTry : list string :=
  [ "bestaudio[ext=m4a]/bestaudio";
    "bestaudio[protocol^=https]/bestaudio";
    "bestaudio[ext=webm]/bestaudio";
    "bestaudio" ].

Definition userAgent : string :=
  "Mozilla/5.0 (Windows NT 10.0; Win64; x64) AppleWebKit/537.36 (KHTML, like Gecko) Chrome/120.0.0.0 Safari/537.36".

(** [commonYtdlArgs] as declared, before the cookies are considered. *)
Definition commonYtdlArgs_declared (rev : revision) : list string :=
  [ "--no-playlist"; "--no-warnings"; "--no-check-certificate";
    "--rm-cache-dir"; "--geo-bypass"; "--no-call-home"; "--no-config";
    "--user-agent"; userAgent ]
  ++ match rev with
     | RevPart002 => [ "--extractor-args"; "youtube:player_client=web_html5" ]
     | _ => []
     end.

Definition useCookies : bool :=
  String.eqb (Js.toLowerCase (Js.or_else (USE_COOKIES E) "")) "true".

Definition cookiesFile : string := Js.or_else (COOKIES_FILE E) "./cookies.txt".

Definition cookiesPath : string := path_join P (dirname P) cookiesFile.

(** [commonYtdlArgs] after the optional [push('--cookies', ..)]. *)
Definition commonYtdlArgs (rev : revision) (w : world) : list string :=
  commonYtdlArgs_declared rev
  ++ (if useCookies && existsSync cookiesPath w
      then [ "--cookies"; cookiesFile ] else []).

Definition ytdlArgs (fmt : string) (common : list string) (url : string)
  : list string :=
  [ "-f"; fmt; "-o"; "-" ] ++ common ++ [ url ].

Definition ffmpegArgs (rate : string) (path : string) : list string :=
  [ "-hide_banner"; "-loglevel"; "warning"; "-i"; "pipe:0"; "-vn";
    "-b:a"; rate; "-f"; "mp3"; path ].

(** ** The route handler as a machine driven by events *)

(** The constants of one request once its file name is known
    ([job_common] is [commonYtdlArgs], which src/index.js does not
    have). *)
Record job := {
  job_rev : revision;
  job_url : string;
  job_bitrate : string;
  job_filename : string;
  job_filePath : string;
  job_common : list string
}.

Inductive state :=
| AwaitMeta (rev : revision) (quality : option string) (idParam : string)
    (st : fetch_state)
| Converting (j : job) (fmt : string) (rest : list string)
    (ytdlStderr ffmpegStderr finalErrorText : string)
| Sending (j : job)
| Done (killOnClose : bool).

(** One line of a failed attempt's report. *)
Definition or_none (s : string) : string :=
  if Js.truthy s then s else "(none)".

Definition attempt_report (fmt ytdlStderr ffmpegStderr : string)
    (code : option Z) : string :=
  nl +:+ nl +:+ "--- Attempt format=" +:+ fmt +:+ " ---" +:+ nl +:+ nl
  +:+ "yt-dlp stderr:" +:+ nl +:+ or_none ytdlStderr +:+ nl +:+ nl
  +:+ "ffmpeg stderr:" +:+ nl +:+ or_none ffmpegStderr +:+ nl +:+ nl
  +:+ "ffmpeg exit code: " +:+ Js.of_code code +:+ nl.

Definition advice403 (rev : revision) : string :=
  match rev with
  | RevPart002 =>
      nl +:+ "Detected 403 Forbidden — try cookies (USE_COOKIES=true + COOKIES_CONTENT secret) or an authenticated account."
  | _ =>
      nl +:+ "Detected 403 Forbidden — video may be region/age-restricted. Try cookies (USE_COOKIES=true + COOKIES_FILE=./cookies.txt) or use an authenticated account."
  end.

Definition adviceFormat (rev : revision) : string :=
  match rev with
  | RevPart002 =>
      nl +:+ "Requested format not available — multiple fallbacks attempted."
  | _ =>
      nl +:+ "Requested format not available — we tried multiple fallbacks."
  end.

Definition advice (rev : revision) (finalErrorText : string) : string :=
  (if Js.test_ci "HTTP Error 403" finalErrorText
      || Js.test_ci "Forbidden" finalErrorText
   then advice403 rev else "")
  +:+ (if Js.test_ci "Requested format is not available" finalErrorText
       then adviceFormat rev else "").

Definition failure_body (rev : revision) (finalErrorText : string) : string :=
  "Conversion failed. Debug info:" +:+ nl +:+ finalErrorText +:+ nl
  +:+ advice rev finalErrorText.

(** The two processes of one attempt. *)
Definition attempt_spawns (j : job) (fmt : string) : list effect :=
  [ Spawn "yt-dlp" (ytdlArgs fmt (job_common j) (job_url j));
    Spawn "ffmpeg" (ffmpegArgs (job_bitrate j) (job_filePath j)) ].

(** The [for (const fmt of formatsToTry)] loop from the head of [fmts]
    on, up to its next [await]; past the last format, the 500 answer. *)
Definition next_attempt (j : job) (fmts : list string)
    (finalErrorText : string) (w : world) : world * state * list effect :=
  match fmts with
  | fmt :: rest =>
      (w, Converting j fmt rest "" "" finalErrorText, attempt_spawns j fmt)
  | [] =>
      (w, Done false,
       [ Respond 500 (failure_body (job_rev j) finalErrorText) ])
  end.

(** The handler from the end of the metadata block up to its next
    [await] (or its return), [title] being [safeTitle]. *)
Definition proceed (rev : revision) (quality : option string)
    (idParam : string) (title : option string) (w : world)
  : world * state * list effect :=
  let name := filename title idParam quality (now w) in
  let j := {| job_rev := rev;
              job_url := videoUrl idParam;
              job_bitrate := default "undefined" (bitrate quality);
              job_filename := name;
              job_filePath := filePath name;
              job_common := if has_fallback rev
                            then commonYtdlArgs rev w else [] |} in
  if existsSync (filePath name) w then
    match rev with
    | RevIndex => (w, Done false, [ Download (filePath name) None ])
    | _ => (w, Sending j, [ Download (filePath name) (Some name) ])
    end
  else
    match rev with
    | RevIndex =>
        (w, Converting j "bestaudio" [] "" "" "",
         [ Spawn "yt-dlp" [ "-f"; "bestaudio"; "-o"; "-"; videoUrl idParam ];
           Spawn "ffmpeg" (ffmpegArgs (job_bitrate j) (job_filePath j)) ])
    | _ => next_attempt j formatsToTry "" w
    end.

(** The ['close'] listener of the transcoder. *)
Definition on_ffmpeg_close (j : job) (fmt : string) (rest : list string)
    (ytdlStderr ffmpegStderr finalErrorText : string) (code : option Z)
    (w : world) : world * state * list effect :=
  if Js.is_zero code && existsSync (job_filePath j) w then
    (w, Sending j, [ Download (job_filePath j) (Some (job_filename j)) ])
  else if has_fallback (job_rev j) then
    next_attempt j rest
      (finalErrorText +:+ attempt_report fmt ytdlStderr ffmpegStderr code)
      (cleanup (job_filePath j) w)
  else
    (cleanup (job_filePath j) w, Done true,
     [ Respond 500 "Conversion failed" ]).

(** [scheduleDelete(filePath)]: a timer that unlinks the file after one
    hour. *)
Definition scheduleDelete (path : string) : effect :=
  SetTimeout ONE_HOUR_MS path.

(** The callback of [res.download]. *)
Definition on_download_done (j : job) (r : download_result) : list effect :=
  match r with
  | Sent => [ scheduleDelete (job_filePath j) ]
  | SendFailed headersSent =>
      if has_fallback (job_rev j) || headersSent then []
      else [ Respond 500 "Error sending file" ]
  end.

(** [req.on('close', ..)] of src/index.js. *)
Definition kill_children : list effect :=
  [ Kill Extractor "SIGKILL"; Kill Transcoder "SIGKILL" ].

Definition step (w : world) (s : state) (e : event)
  : world * state * list effect :=
  match e with
  | FileWritten _ | ClockTick _ => (observe w e, s, [])
  | _ =>
    match s with
    | AwaitMeta rev quality idParam st =>
        let st' := fetch_step rev st e in
        match result st' with
        | Pending => (w, AwaitMeta rev quality idParam st', [])
        | settled => proceed rev quality idParam (safeTitle settled) w
        end
    | Converting j fmt rest y f t =>
        match e with
        | YtdlStderr d =>
            if has_fallback (job_rev j)
            then (w, Converting j fmt rest (y +:+ Buffer_toString P d) f t, [])
            else (w, s, [])
        | YtdlError msg =>
            if has_fallback (job_rev j)
            then (w, Converting j fmt rest
                       (y +:+ "yt-dlp spawn error: " +:+ msg +:+ nl) f t, [])
            else (w, s, [])
        | FfmpegStderr d =>
            if has_fallback (job_rev j)
            then (w, Converting j fmt rest y (f +:+ Buffer_toString P d) t, [])
            else (w, s, [])
        | FfmpegError msg =>
            if has_fallback (job_rev j)
            then (w, Converting j fmt rest y
                       (f +:+ "ffmpeg spawn error: " +:+ msg +:+ nl) t, [])
            else (w, s, [])
        | FfmpegClose code => on_ffmpeg_close j fmt rest y f t code w
        | ReqClose =>
            if has_fallback (job_rev j) then (w, s, [])
            else (w, s, kill_children)
        | _ => (w, s, [])
        end
    | Sending j =>
        match e with
        | DownloadDone r =>
            (w, Done (negb (has_fallback (job_rev j))), on_download_done j r)
        | ReqClose =>
            if has_fallback (job_rev j) then (w, s, [])
            else (w, s, kill_children)
        | _ => (w, s, [])
        end
    | Done killOnClose =>
        match e with
        | ReqClose => (w, s, if killOnClose then kill_children else [])
        | _ => (w, s, [])
        end
    end
  end.

Fixpoint run (w : world) (s : state) (evs : list event)
  : world * state * list effect :=
  match evs with
  | [] => (w, s, [])
  | e :: evs' =>
      let '(w1, s1, fx1) := step w s e in
      let '(w2, s2, fx2) := run w1 s1 evs' in
      (w2, s2, (fx1 ++ fx2)%list)
  end.

(** [req.params] *)
Record request := {
  quality : option string;
  id : option string
}.

(** The handler from its entry to the [await] of the metadata, as a
    function of [req.params]; which parameters a request brings is settled
    by [route] below. *)
Definition start (rev : revision) (req : request) : state * list effect :=
  match id req with
  | Some idParam =>
      if Js.truthy idParam then
        (AwaitMeta rev (quality req) idParam fetch_init,
         [ Spawn "yt-dlp" [ "-j"; "--no-warnings"; videoUrl idParam ] ])
      else (Done false, [ Respond 400 "Missing id" ])
  | None => (Done false, [ Respond 400 "Missing id" ])
  end.

(** One request from its arrival, against the events that follow. *)
Definition handle (rev : revision) (req : request) (w : world)
    (evs : list event) : world * state * list effect :=
  let '(s0, fx0) := start rev req in
  let '(w', s', fx) := run w s0 evs in
  (w', s', (fx0 ++ fx)%list).

End Handler.

(** ** Routing

    [app.get('/:quality/id=:id', ..)] and [app.get('/', ..)].  Express
    matches the path of a request against a route pattern without regard
    to case and allows one slash at the end; a named parameter of the
    pattern stands for one or more characters other than the slash, so
    that neither [quality] nor [id] is ever empty when the handler is
    called.  A path that no route matches is answered by Express itself
    with status 404.  (Express hands the parameters over percent-decoded;
    the model takes paths without percent escapes.) *)

(** The text before the first slash of [s] and, if there is a slash, the
    text after it. *)
Fixpoint segment (s : string) : string * option string :=
  match s with
  | EmptyString => (EmptyString, None)
  | String c s' =>
      if Ascii.eqb c "/" then (EmptyString, Some s')
      else let '(a, r) := segment s' in (String c a, r)
  end.

Fixpoint drop_string (n : nat) (s : string) : string :=
  match n, s with
  | S n', String _ s' => drop_string n' s'
  | _, _ => s
  end.

(** The parameters of a path that matches ['/:quality/id=:id']. *)
Definition match_params (path : string) : option request :=
  match path with
  | String c p1 =>
      if Ascii.eqb c "/" then
        let '(q, r1) := segment p1 in
        match r1 with
        | Some p2 =>
            let '(seg, r2) := segment p2 in
            let i := drop_string 3 seg in
            if Js.truthy q
               && String.eqb (Js.toLowerCase (Js.slice0 3 seg)) "id="
               && Js.truthy i
               && match r2 with
                  | None => true
                  | Some tail => String.eqb tail ""
                  end
            then Some {| quality := Some q; id := Some i |}
            else None
        | None => None
        end
      else None
  | EmptyString => None
  end.

Inductive routed :=
| ToHandler (req : request)   (* the route handler is called *)
| ToRoot                      (* the handler of ['/'] is called *)
| NotFound.                   (* no route matches *)

Definition route (path : string) : routed :=
  match match_params path with
  | Some req => ToHandler req
  | None => if String.eqb path "/" then ToRoot else NotFound
  end.

Definition root_text : string :=
  "yt-music-download-api running. Example: /High/id=dQw4w9WgXcQ".

(** One GET request for [path], against the events that follow.  The
    body of the 404 is the message of the page Express sends. *)
Definition app_get (P : platform) (E : environment) (rev : revision)
    (path : string) (w : world) (evs : list event)
  : world * state * list effect :=
  match route path with
  | ToHandler req => handle P E rev req w evs
  | ToRoot => (fold_left observe evs w, Done false, [ Respond 200 root_text ])
  | NotFound =>
      (fold_left observe evs w, Done false,
       [ Respond 404 ("Cannot GET " +:+ path) ])
  end.

(** ** Reference instances of the external parameters

    Used by the examples only; every general statement below holds for an
    arbitrary [platform] and [environment]. *)

Definition dquote : ascii := ascii_of_nat 34.

Fixpoint filter_string (keep : ascii -> bool) (s : string) : string :=
  match s with
  | EmptyString => EmptyString
  | String c s' =>
      if keep c then String c (filter_string keep s')
      else filter_string keep s'
  end.

Definition illegal_char (c : ascii) : bool :=
  existsb (Ascii.eqb c) (dquote :: list_ascii_of_string "/?<>\:*|").

Definition control_char (c : ascii) : bool := (nat_of_ascii c <? 32)%nat.

Definition only_dots (s : string) : bool :=
  Js.truthy s && forallb (Ascii.eqb ".") (list_ascii_of_string s).

Fixpoint before_dot (s : string) : string :=
  match s with
  | EmptyString => EmptyString
  | String c s' => if Ascii.eqb c "." then EmptyString
                   else String c (before_dot s')
  end.

Definition windows_reserved (s : string) : bool :=
  Js.includes
    ([ "con"; "prn"; "aux"; "nul" ]
     ++ map (fun d => "com" +:+ d)
            [ "0"; "1"; "2"; "3"; "4"; "5"; "6"; "7"; "8"; "9" ]
     ++ map (fun d => "lpt" +:+ d)
            [ "0"; "1"; "2"; "3"; "4"; "5"; "6"; "7"; "8"; "9" ])
    (Js.toLowerCase (before_dot s)).

Fixpoint strip_trailing (s : string) : string :=
  match s with
  | EmptyString => EmptyString
  | String c s' =>
      let r := strip_trailing s' in
      if String.eqb r "" && (Ascii.eqb c "." || Ascii.eqb c " ")
      then EmptyString else String c r
  end.

(** The sanitize-filename package with its default (empty) replacement:
    illegal characters and the control characters below 32 are dropped, a
    name made of dots or reserved on Windows becomes empty, trailing dots
    and spaces go, and the result is cut at 255. *)
Definition sanitize_ref (s : string) : string :=
  let s1 := filter_string (fun c => negb (illegal_char c)) s in
  let s2 := filter_string (fun c => negb (control_char c)) s1 in
  let s3 := if only_dots s2 then "" else s2 in
  let s4 := if windows_reserved s3 then "" else s3 in
  Js.slice0 255 (strip_trailing s4).

(** A stand-in for [JSON.parse], enough for the examples: it reads the
    documents [null] and [{"title":"text"}] (text without quotes or
    escapes) and throws on everything else. *)
Definition title_open : string :=
  "{" +:+ String dquote "title" +:+ String dquote ":" +:+ String dquote "".

Definition title_close : string := String dquote "}".

Definition parse_ref (s : string) : option Js.json :=
  if String.eqb s "null" then Some Js.JNull
  else if String.prefix title_open s then
    let body := drop_string (String.length title_open) s in
    let text := Js.slice0 (String.length body - 2) body in
    if String.eqb body (text +:+ title_close)
       && negb (Js.contains (String dquote "") text)
    then Some (Js.JObj [ ("title", Js.JStr text) ])
    else None
  else None.

Definition title_doc (text : string) : string :=
  title_open +:+ text +:+ title_close.

(** [Buffer_toString] is the identity here, which is what decoding does to
    a chunk of ASCII bytes; the examples use no other. *)
Definition ref_platform : platform :=
  {| sanitize := sanitize_ref;
     JSON_parse := parse_ref;
     path_join := fun a b => a +:+ "/" +:+ b;
     dirname := "/app";
     Buffer_toString := fun chunk => chunk |}.

Definition no_cookies : environment :=
  {| USE_COOKIES := None; COOKIES_FILE := None |}.

Definition with_cookies : environment :=
  {| USE_COOKIES := Some "TRUE"; COOKIES_FILE := None |}.

Definition empty_world (t : Z) : world := {| fs := ∅; now := t |}.

(** The effects of a run on the outside. *)
Definition effects_of (r : world * state * list effect) : list effect := r.2.

Definition state_of (r : world * state * list effect) : state := r.1.2.

Definition world_of (r : world * state * list effect) : world := r.1.1.

(** The format selectors of the extraction processes spawned, in order. *)
Definition selector_of (e : effect) : option string :=
  match e with
  | Spawn cmd ("-f" :: fmt :: _) =>
      if String.eqb cmd "yt-dlp" then Some fmt else None
  | _ => None
  end.

Definition selectors (fx : list effect) : list string := omap selector_of fx.

Definition is_spawn (e : effect) : bool :=
  match e with
  | Spawn _ _ => true
  | _ => false
  end.

Definition spawns (fx : list effect) : list effect := filter is_spawn fx.

Definition is_kill (e : effect) : bool :=
  match e with
  | Kill _ _ => true
  | _ => false
  end.

Definition is_timeout (e : effect) : bool :=
  match e with
  | SetTimeout _ _ => true
  | _ => false
  end.

Definition is_respond (e : effect) : bool :=
  match e with
  | Respond _ _ => true
  | _ => false
  end.

(** The job a state works on. *)
Definition job_of (s : state) : option job :=
  match s with
  | Converting j _ _ _ _ _ => Some j
  | Sending j => Some j
  | _ => None
  end.

(** ** Vocabulary of the statements *)

(** The alphabet of a video ID. *)
Definition id_alphabet : string :=
  "abcdefghijklmnopqrstuvwxyzABCDEFGHIJKLMNOPQRSTUVWXYZ0123456789_-".

(** The title string that the metadata delivered, if it delivered one. *)
Definition metadata_title (settled : promise) : option string :=
  match settled with
  | Resolved (Js.JObj fields) =>
      match Js.assoc "title" fields with
      | Some (Js.JStr t) => Some t
      | _ => None
      end
  | _ => None
  end.

(** The events that end a metadata fetch without a title: the process
    closes with a code other than 0, with nothing on its output or with
    output that does not parse, or it could not be spawned. *)
Definition metadata_failure (P : platform) (st : fetch_state) (e : event)
  : Prop :=
  match e with
  | MetaClose code =>
      Js.is_zero code = false ∨ out st = "" ∨ JSON_parse P (out st) = None
  | MetaError _ => True
  | _ => False
  end.

(** One attempt as the outside plays it: what happens while the two
    processes run, then the transcoder closes with [a_code]. *)
Record attempt := {
  a_during : list event;
  a_code : option Z
}.

Definition attempt_events (a : attempt) : list event :=
  (a_during a ++ [ FfmpegClose (a_code a) ])%list.

Definition in_flight (e : event) : Prop :=
  match e with
  | FfmpegClose _ => False
  | _ => True
  end.

(** The text that reached the two stderr buffers during an attempt. *)
Definition ytdl_text (P : platform) (evs : list event) : string :=
  fold_left (fun acc e =>
               match e with
               | YtdlStderr d => acc +:+ Buffer_toString P d
               | YtdlError msg => acc +:+ "yt-dlp spawn error: " +:+ msg +:+ nl
               | _ => acc
               end) evs "".

Definition ffmpeg_text (P : platform) (evs : list event) : string :=
  fold_left (fun acc e =>
               match e with
               | FfmpegStderr d => acc +:+ Buffer_toString P d
               | FfmpegError msg => acc +:+ "ffmpeg spawn error: " +:+ msg +:+ nl
               | _ => acc
               end) evs "".

(** An attempt succeeds when the transcoder exits with 0 and the output
    file is there. *)
Definition attempt_ok (path : string) (w : world) (a : attempt) : bool :=
  Js.is_zero (a_code a)
  && existsSync path (fold_left observe (a_during a) w).

(** Every attempt of [atts] fails, the first one starting in [w]. *)
Fixpoint all_fail (path : string) (w : world) (atts : list attempt) : bool :=
  match atts with
  | [] => true
  | a :: atts' =>
      negb (attempt_ok path w a)
      && all_fail path (cleanup path (fold_left observe (a_during a) w)) atts'
  end.

(** The reports of the attempts, each under its selector. *)
Fixpoint reports (P : platform) (fmts : list string) (atts : list attempt)
  : string :=
  match fmts, atts with
  | fmt :: fmts', a :: atts' =>
      attempt_report fmt (ytdl_text P (a_during a))
        (ffmpeg_text P (a_during a)) (a_code a)
      +:+ reports P fmts' atts'
  | _, _ => ""
  end.

(** How many times the transcoder closes during [evs]. *)
Fixpoint transcoder_closes (evs : list event) : nat :=
  match evs with
  | [] => 0
  | FfmpegClose _ :: evs' => S (transcoder_closes evs')
  | _ :: evs' => transcoder_closes evs'
  end.

(** 1 while the metadata is awaited and the first attempt is still to be
    started, 0 from then on. *)
Definition awaiting (s : state) : nat :=
  match s with
  | AwaitMeta _ _ _ _ => 1
  | _ => 0
  end.

(** The status codes answered. *)
Definition status_of (e : effect) : option Z :=
  match e with
  | Respond status _ => Some status
  | _ => None
  end.

Definition statuses (fx : list effect) : list Z := omap status_of fx.

(** A run that goes on after the handler has reached [r]. *)
Definition continue (P : platform) (E : environment)
    (r : world * state * list effect) (evs : list event)
  : world * state * list effect :=
  let '(w, s, fx) := r in
  let '(w', s', fx') := run P E w s evs in
  (w', s', (fx ++ fx')%list).

Definition is_transcode (e : effect) : bool :=
  match e with
  | Spawn cmd _ => String.eqb cmd "ffmpeg"
  | _ => false
  end.

(** The selectors a state may still try. *)
Definition pending_formats (s : state) : list string :=
  match s with
  | AwaitMeta _ _ _ _ => formatsToTry
  | Converting _ _ rest _ _ _ => rest
  | _ => []
  end.

(** The states of a request served by a fallback revision. *)
Definition fallback_state (s : state) : bool :=
  match s with
  | AwaitMeta rev _ _ _ => has_fallback rev
  | Converting j _ _ _ _ _ => has_fallback (job_rev j)
  | Sending j => has_fallback (job_rev j)
  | Done killOnClose => negb killOnClose
  end.

(** ** Retention store *)

(** One entry [f] of the directory listing in [cleanupOldFiles]: the
    callback of [fs.stat] ([None]: the error branch) and, for a file older
    than one hour, [fs.unlink].  The directory is given by the
    modification time (in milliseconds) of each file that exists (the
    entries are files, whose unlink succeeds); [now] is the time read
    when the sweep started. *)
Definition sweep_entry (P : platform) (now : Z) (d : gmap string Z)
    (f : string) : gmap string Z :=
  let p := path_join P (DOWNLOAD_DIR P) f in
  match d !! p with
  | None => d
  | Some mtime => if (now - mtime >? ONE_HOUR_MS)%Z then delete p d else d
  end.

(** [cleanupOldFiles()]: [listing] is what [fs.readdir] hands to its
    callback, [None] for an error. *)
Definition cleanupOldFiles (P : platform) (now : Z)
    (listing : option (list string)) (d : gmap string Z) : gmap string Z :=
  match listing with
  | None => d
  | Some files => fold_left (sweep_entry P now) files d
  end.

(** The callback of a timer set by [scheduleDelete]: [fs.unlink] with its
    error ignored. *)
Definition fire (e : effect) (w : world) : world :=
  match e with
  | SetTimeout _ p => {| fs := fs w ∖ {[ p ]}; now := now w |}
  | _ => w
  end.

(** src/unnamed/part_002 when it is loaded: the cookies file is written
    from COOKIES_CONTENT if that is set; [written] tells whether
    [fs.writeFileSync] went through (its error is caught). *)
Definition write_cookies (P : platform) (E : environment)
    (COOKIES_CONTENT : option string) (written : bool) (w : world) : world :=
  if negb (Js.falsy COOKIES_CONTENT) && written
  then {| fs := {[ cookiesPath P E ]} ∪ fs w; now := now w |}
  else w.

(** ** More vocabulary *)

Definition is_download (e : effect) : bool :=
  match e with
  | Download _ _ => true
  | _ => false
  end.

Definition is_answer (e : effect) : bool := is_download e || is_respond e.

(** The file an effect is about: the output of the transcoder, the file
    sent, the file a timer will unlink. *)
Definition file_of (e : effect) : option string :=
  match e with
  | Spawn cmd args => if String.eqb cmd "ffmpeg" then last args else None
  | Download p _ => Some p
  | SetTimeout _ p => Some p
  | _ => None
  end.

Definition files_of (fx : list effect) : list string := omap file_of fx.

(** The text gathered on the output of the metadata process. *)
Definition meta_output (P : platform) (evs : list event) : string :=
  fold_left (fun acc e =>
               match e with
               | MetaData chunk => acc +:+ Buffer_toString P chunk
               | _ => acc
               end) evs "".

Definition meta_silent (e : event) : Prop :=
  match e with
  | MetaClose _ | MetaError _ => False
  | _ => True
  end.

Definition not_download_done (e : event) : Prop :=
  match e with
  | DownloadDone _ => False
  | _ => True
  end.

(** What the disconnect listener of src/index.js sends during [evs]. *)
Definition disconnect_kills (evs : list event) : list effect :=
  flat_map (fun e => match e with
                     | ReqClose => kill_children
                     | _ => []
                     end) evs.

(** How many answers, and how many processes, a state may still give. *)
Definition answers_left (s : state) : nat :=
  match s with
  | AwaitMeta rev _ _ _ => if has_fallback rev then 1 else 2
  | Converting j _ _ _ _ _ => if has_fallback (job_rev j) then 1 else 2
  | Sending j => if has_fallback (job_rev j) then 0 else 1
  | Done _ => 0
  end.

Definition downloads_left (s : state) : nat :=
  match s with
  | AwaitMeta _ _ _ _ | Converting _ _ _ _ _ _ => 1
  | _ => 0
  end.

Definition spawns_left (s : state) : nat :=
  match s with
  | AwaitMeta rev _ _ _ =>
      if has_fallback rev then 2 * length formatsToTry else 2
  | Converting j _ rest _ _ _ =>
      if has_fallback (job_rev j) then 2 * length rest else 0
  | _ => 0
  end.

(** The file a state works on. *)
Definition state_path (s : state) : option string :=
  match s with
  | Converting j _ _ _ _ _ => Some (job_filePath j)
  | Sending j => Some (job_filePath j)
  | _ => None
  end.

Definition chars (s : string) : list ascii := list_ascii_of_string s.

(** The URL an effect hands to yt-dlp: its last argument. *)
Definition url_of (e : effect) : option string :=
  match e with
  | Spawn cmd args => if String.eqb cmd "yt-dlp" then last args else None
  | _ => None
  end.

Definition urls_of (fx : list effect) : list string := omap url_of fx.

(** The state works on the file [p] (on the URL [u]), or has answered. *)
Definition follows (p : string) (s : state) : Prop :=
  state_path s = Some p ∨ ∃ k, s = Done k.

Definition state_url (s : state) : option string :=
  match s with
  | Converting j _ _ _ _ _ => Some (job_url j)
  | Sending j => Some (job_url j)
  | _ => None
  end.

Definition follows_url (u : string) (s : state) : Prop :=
  state_url s = Some u ∨ ∃ k, s = Done k.

(** * Properties *)

(** ** Helper lemmas on the JavaScript primitives *)

Ltac in_list :=
  repeat first [ apply list_elem_of_here | apply list_elem_of_further ].

Lemma includes_elem (arr : list string) (s : string) :
  Js.includes arr s = true ↔ s ∈ arr.
Proof.
  unfold Js.includes. induction arr as [|a arr IH]; simpl.
  - split; [discriminate | intros H; inversion H].
  - rewrite orb_true_iff, IH, elem_of_cons, String.eqb_eq. reflexivity.
Qed.

Lemma truthy_false (s : string) : Js.truthy s = false ↔ s = "".
Proof.
  unfold Js.truthy. rewrite negb_false_iff. apply String.eqb_eq.
Qed.

Lemma truthy_true (s : string) : Js.truthy s = true ↔ s ≠ "".
Proof.
  unfold Js.truthy. rewrite negb_true_iff. apply String.eqb_neq.
Qed.

Lemma toLowerCase_empty (s : string) : Js.toLowerCase s = "" ↔ s = "".
Proof. destruct s; simpl; split; congruence. Qed.

Lemma rawQuality_lower (a b : string) :
  Js.toLowerCase a = Js.toLowerCase b →
  rawQuality (Some a) = rawQuality (Some b).
Proof.
  intros H. unfold rawQuality, Js.or_else.
  destruct (Js.truthy a) eqn:Ha, (Js.truthy b) eqn:Hb; try assumption.
  - apply truthy_false in Hb. subst b. simpl in H.
    apply (proj1 (toLowerCase_empty a)) in H.
    apply truthy_true in Ha. contradiction.
  - apply truthy_false in Ha. subst a. simpl in H. symmetry in H.
    apply (proj1 (toLowerCase_empty b)) in H.
    apply truthy_true in Hb. contradiction.
  - reflexivity.
Qed.

(** ** Quality tier *)

(** C4: the quality segment is read case-insensitively; [low], [medium]
    and [high] select 64k, 128k and 320k, every other value selects the
    [high] tier with 320k, and the bitrate handed to the transcoder is
    always one of the three. *)
Theorem quality_tier_resolution (q : option string) :
  (rawQuality q = "low" → qualityKey q = "low" ∧ bitrate q = Some "64k")
  ∧ (rawQuality q = "medium" →
     qualityKey q = "medium" ∧ bitrate q = Some "128k")
  ∧ (rawQuality q = "high" → qualityKey q = "high" ∧ bitrate q = Some "320k")
  ∧ (rawQuality q ∉ [ "low"; "medium"; "high" ] →
     qualityKey q = "high" ∧ bitrate q = Some "320k")
  ∧ (∀ a b : string, Js.toLowerCase a = Js.toLowerCase b →
     qualityKey (Some a) = qualityKey (Some b)
     ∧ bitrate (Some a) = bitrate (Some b))
  ∧ default "undefined" (bitrate q) ∈ [ "64k"; "128k"; "320k" ]
  ∧ (∀ P E rev idParam title w j,
     job_of (state_of (proceed P E rev q idParam title w)) = Some j →
     job_bitrate j ∈ [ "64k"; "128k"; "320k" ]).
Proof.
  assert (Hcase : ∀ r, rawQuality q = r → r ∈ [ "low"; "medium"; "high" ] →
                       qualityKey q = r ∧ bitrate q = qualityMap !! r).
  { intros r Hr Hin. unfold bitrate, qualityKey. rewrite Hr.
    apply includes_elem in Hin. rewrite Hin. split; reflexivity. }
  assert (Hother : rawQuality q ∉ [ "low"; "medium"; "high" ] →
                   qualityKey q = "high" ∧ bitrate q = Some "320k").
  { intros Hout. unfold bitrate, qualityKey.
    destruct (Js.includes _ (rawQuality q)) eqn:Hinc.
    - apply includes_elem in Hinc. contradiction.
    - split; reflexivity. }
  assert (Hrate : default "undefined" (bitrate q) ∈ [ "64k"; "128k"; "320k" ]).
  { destruct (decide (rawQuality q ∈ [ "low"; "medium"; "high" ]))
      as [Hin|Hout].
    - destruct (Hcase _ eq_refl Hin) as [_ ->].
      rewrite !elem_of_cons in Hin.
      destruct Hin as [-> | [-> | [-> | Hnil]]];
        [ | | | inversion Hnil ]; vm_compute; in_list.
    - destruct (Hother Hout) as [_ ->]. simpl. in_list. }
  split; [intros H; apply (Hcase "low"); [exact H | in_list]|].
  split; [intros H; apply (Hcase "medium"); [exact H | in_list]|].
  split; [intros H; apply (Hcase "high"); [exact H | in_list]|].
  split; [exact Hother|].
  split.
  { intros a b Hab. unfold bitrate, qualityKey.
    rewrite (rawQuality_lower a b Hab). split; reflexivity. }
  split; [exact Hrate|].
  intros P E rev idParam title w j. unfold proceed, state_of.
  destruct (existsSync (filePath P _) w); destruct rev; simpl;
    intros Hj; inversion Hj; exact Hrate.
Qed.

Lemma quality_tier_resolution_witness :
  rawQuality (Some "MeDiUm") = "medium"
  ∧ bitrate (Some "MeDiUm") = Some "128k"
  ∧ bitrate (Some "LOW") = Some "64k"
  ∧ bitrate (Some "High") = Some "320k"
  ∧ bitrate (Some "ultra") = Some "320k"
  ∧ bitrate (Some "HIGH") = bitrate (Some "high").
Proof.
  split; [reflexivity|].
  split.
  { apply (proj1 (proj2 (quality_tier_resolution (Some "MeDiUm")))).
    reflexivity. }
  split.
  { apply (proj1 (quality_tier_resolution (Some "LOW"))). reflexivity. }
  split.
  { apply (proj1 (proj2 (proj2 (quality_tier_resolution (Some "High"))))).
    reflexivity. }
  split.
  { apply (proj1 (proj2 (proj2 (proj2
             (quality_tier_resolution (Some "ultra")))))).
    vm_compute. intros H. repeat (apply elem_of_cons in H as [H|H]; [discriminate|]). inversion H. }
  apply (proj1 (proj2 (proj2 (proj2 (proj2
           (quality_tier_resolution None))))) "HIGH" "high").
  reflexivity.
Defined.

(** ** Source resolution *)

Lemma is_id_char_alphabet (c : ascii) :
  is_id_char c = bool_decide (c ∈ list_ascii_of_string id_alphabet).
Proof.
  destruct c as [[] [] [] [] [] [] [] []]; vm_compute; reflexivity.
Qed.

Lemma is_video_id_spec (s : string) :
  is_video_id s = true ↔
  String.length s = 11
  ∧ Forall (λ c, c ∈ list_ascii_of_string id_alphabet)
           (list_ascii_of_string s).
Proof.
  unfold is_video_id.
  rewrite andb_true_iff, Nat.eqb_eq, forallb_forall, Forall_forall.
  split; intros [Hlen Hall]; split; trivial; intros c Hc.
  - apply list_elem_of_In in Hc. specialize (Hall c Hc).
    rewrite is_id_char_alphabet in Hall. apply bool_decide_eq_true in Hall.
    exact Hall.
  - apply list_elem_of_In in Hc. specialize (Hall c Hc).
    rewrite is_id_char_alphabet. apply bool_decide_eq_true. exact Hall.
Qed.

Lemma videoUrl_starts_http (idParam : string) :
  String.prefix "http" (videoUrl idParam) = true.
Proof.
  unfold videoUrl, Js.startsWith.
  destruct (is_video_id idParam); [reflexivity|].
  destruct (String.prefix "http" idParam) eqn:Hp; [exact Hp | reflexivity].
Qed.

(** C5: the URL is a function of the identifier alone: an identifier of
    exactly 11 characters of the ID alphabet goes into the watch URL,
    otherwise one that starts like a URL is taken as it is, otherwise it
    goes into the watch URL all the same; every revision hands that URL to
    the metadata process and keeps it for the extraction processes. *)
Theorem source_resolution (idParam : string) :
  (is_video_id idParam = true ↔
   String.length idParam = 11
   ∧ Forall (λ c, c ∈ list_ascii_of_string id_alphabet)
            (list_ascii_of_string idParam))
  ∧ (is_video_id idParam = true →
     videoUrl idParam = "https://www.youtube.com/watch?v=" +:+ idParam)
  ∧ (is_video_id idParam = false → Js.startsWith idParam "http" = true →
     videoUrl idParam = idParam)
  ∧ (is_video_id idParam = false → Js.startsWith idParam "http" = false →
     videoUrl idParam = "https://www.youtube.com/watch?v=" +:+ idParam)
  ∧ videoUrl "dQw4w9WgXcQ" = "https://www.youtube.com/watch?v=dQw4w9WgXcQ"
  ∧ (∀ rev q, idParam ≠ "" →
     (start rev {| quality := q; id := Some idParam |}).2
     = [ Spawn "yt-dlp" [ "-j"; "--no-warnings"; videoUrl idParam ] ])
  ∧ (∀ P E rev q title w j,
     job_of (state_of (proceed P E rev q idParam title w)) = Some j →
     job_url j = videoUrl idParam).
Proof.
  split; [apply is_video_id_spec|].
  split; [intros H; unfold videoUrl; rewrite H; reflexivity|].
  split; [intros H1 H2; unfold videoUrl; rewrite H1, H2; reflexivity|].
  split; [intros H1 H2; unfold videoUrl; rewrite H1, H2; reflexivity|].
  split; [reflexivity|].
  split.
  - intros rev q Hne. unfold start. simpl.
    apply truthy_true in Hne. rewrite Hne. reflexivity.
  - intros P E rev q title w j. unfold proceed, state_of.
    destruct (existsSync _ w); destruct rev; simpl;
      intros Hj; inversion Hj; reflexivity.
Qed.

Lemma source_resolution_witness :
  videoUrl "abcdefghijk" = "https://www.youtube.com/watch?v=abcdefghijk"
  ∧ videoUrl "https://youtu.be/dQw4w9WgXcQ" = "https://youtu.be/dQw4w9WgXcQ"
  ∧ videoUrl "some words" = "https://www.youtube.com/watch?v=some words"
  ∧ (start RevIndex {| quality := None; id := Some "some words" |}).2
    = [ Spawn "yt-dlp"
          [ "-j"; "--no-warnings";
            "https://www.youtube.com/watch?v=some words" ] ].
Proof.
  split.
  { apply (proj1 (proj2 (source_resolution "abcdefghijk"))). reflexivity. }
  split.
  { apply (proj1 (proj2 (proj2
             (source_resolution "https://youtu.be/dQw4w9WgXcQ"))));
      reflexivity. }
  split.
  { apply (proj1 (proj2 (proj2 (proj2 (source_resolution "some words")))));
      reflexivity. }
  apply (proj1 (proj2 (proj2 (proj2 (proj2 (proj2
           (source_resolution "some words"))))))). discriminate.
Defined.

(** ** Runs of the machine *)

Section Runs.

Variable P : platform.
Variable E : environment.

Lemma run_app (w : world) (s : state) (evs1 evs2 : list event) :
  run P E w s (evs1 ++ evs2) =
  let '(w1, s1, fx1) := run P E w s evs1 in
  let '(w2, s2, fx2) := run P E w1 s1 evs2 in
  (w2, s2, (fx1 ++ fx2)%list).
Proof.
  revert w s. induction evs1 as [|e evs1 IH]; intros w s; simpl.
  - destruct (run P E w s evs2) as [[w2 s2] fx2]. reflexivity.
  - destruct (step P E w s e) as [[w1 s1] fx1].
    rewrite IH.
    destruct (run P E w1 s1 evs1) as [[w1' s1'] fx1'].
    destruct (run P E w1' s1' evs2) as [[w2 s2] fx2].
    rewrite app_assoc. reflexivity.
Qed.

(** Once the handler has answered without the disconnect listener, only
    the world moves. *)
Lemma run_done (w : world) (evs : list event) :
  run P E w (Done false) evs = (fold_left observe evs w, Done false, []).
Proof.
  revert w. induction evs as [|e evs IH]; intros w; simpl; [reflexivity|].
  destruct e; simpl; rewrite IH; reflexivity.
Qed.

(** After the answer, no process is started any more. *)
Lemma run_done_no_spawn (k : bool) (w : world) (evs : list event) :
  spawns (effects_of (run P E w (Done k) evs)) = []
  ∧ filter is_respond (effects_of (run P E w (Done k) evs)) = []
  ∧ filter is_timeout (effects_of (run P E w (Done k) evs)) = [].
Proof.
  revert w. induction evs as [|e evs IH]; intros w; simpl.
  - repeat split; reflexivity.
  - destruct e; simpl;
      match goal with
      | |- context [run P E ?w' (Done k) evs] =>
          specialize (IH w'); destruct (run P E w' (Done k) evs) as [[w2 s2] fx2]
      end; try exact IH.
    destruct k; exact IH.
Qed.

Lemma run_sending_no_spawn (j : job) (w : world) (evs : list event) :
  spawns (effects_of (run P E w (Sending j) evs)) = [].
Proof.
  revert w. induction evs as [|e evs IH]; intros w; simpl; [reflexivity|].
  destruct e; simpl;
    try (match goal with
         | |- context [run P E ?w' (Sending j) evs] =>
             specialize (IH w');
             destruct (run P E w' (Sending j) evs) as [[w2 s2] fx2]
         end; exact IH).
  - destruct (has_fallback (job_rev j)); simpl;
      specialize (IH w); destruct (run P E w (Sending j) evs) as [[w2 s2] fx2];
      exact IH.
  - pose proof (run_done_no_spawn (negb (has_fallback (job_rev j))) w evs)
      as [Hd _].
    destruct (run P E w (Done _) evs) as [[w2 s2] fx2].
    unfold effects_of, spawns in *. simpl in *.
    rewrite filter_app, Hd, app_nil_r.
    destruct r as [|hs]; simpl; [reflexivity|].
    destruct (has_fallback (job_rev j) || hs); reflexivity.
Qed.

End Runs.

(** ** Missing identifier *)

(** The guard of the handler: parameters without an identifier are
    answered 400 and nothing is spawned. *)
Lemma guard_answers_missing_id (P : platform) (E : environment)
    (rev : revision) (req : request) (w : world) (evs : list event) :
  Js.falsy (id req) = true →
  handle P E rev req w evs
  = (fold_left observe evs w, Done false, [ Respond 400 "Missing id" ]).
Proof.
  intros Hid. unfold handle, start.
  assert (Hstart :
    match id req with
    | Some idParam =>
        if Js.truthy idParam
        then (AwaitMeta rev (quality req) idParam fetch_init,
              [ Spawn "yt-dlp" [ "-j"; "--no-warnings"; videoUrl idParam ] ])
        else (Done false, [ Respond 400 "Missing id" ])
    | None => (Done false, [ Respond 400 "Missing id" ])
    end = (Done false, [ Respond 400 "Missing id" ])).
  { destruct (id req) as [idParam|]; simpl in Hid; [|reflexivity].
    apply negb_true_iff in Hid. rewrite Hid. reflexivity. }
  rewrite Hstart, run_done. reflexivity.
Qed.

Lemma segment_append (q r : string) :
  "/"%char ∉ list_ascii_of_string q →
  segment (q +:+ String "/" r) = (q, Some r).
Proof.
  induction q as [|c q IH]; intros Hq; [reflexivity|].
  change (String c q +:+ String "/" r) with (String c (q +:+ String "/" r)).
  simpl segment. simpl in Hq. apply not_elem_of_cons in Hq as [Hc Hq].
  rewrite (IH Hq).
  destruct (Ascii.eqb c "/") eqn:Heq; [|reflexivity].
  apply Ascii.eqb_eq in Heq. congruence.
Qed.

(** The handler is called with two parameters that are not empty. *)
Lemma match_params_not_empty (path : string) (req : request) :
  match_params path = Some req →
  ∃ q i, req = {| quality := Some q; id := Some i |} ∧ q ≠ "" ∧ i ≠ "".
Proof.
  unfold match_params. destruct path as [|c p1]; [discriminate|].
  destruct (Ascii.eqb c "/"); [|discriminate].
  destruct (segment p1) as [q [p2|]]; [|discriminate].
  destruct (segment p2) as [seg r2].
  destruct (Js.truthy q) eqn:Hq; [|discriminate].
  destruct (String.eqb _ "id="); [|discriminate].
  destruct (Js.truthy (drop_string 3 seg)) eqn:Hi; [|discriminate].
  destruct (match r2 with None => true | Some tail => String.eqb tail "" end);
    [|discriminate].
  intros Hreq. injection Hreq as <-.
  exists q, (drop_string 3 seg).
  split; [reflexivity|]. split; apply truthy_true; assumption.
Qed.

(** After its entry, the handler answers with no status but 500. *)
Lemma step_statuses (P : platform) (E : environment) (w : world) (s : state)
    (e : event) :
  Forall (λ z, z = 500%Z) (statuses (effects_of (step P E w s e))).
Proof.
  unfold effects_of.
  destruct s as [rev q idParam st | j fmt rest y f t | j | k].
  - assert (Hgo : ∀ title,
              statuses (proceed P E rev q idParam title w).2 = []).
    { intros title. unfold proceed.
      destruct (existsSync (filePath P _) w); destruct rev; reflexivity. }
    destruct e; cbv beta iota zeta delta [step]; try (simpl; constructor);
      (destruct (result (fetch_step P rev st _));
       [simpl; constructor | rewrite Hgo; constructor ..]).
  - destruct e; simpl;
      try (destruct (has_fallback (job_rev j)); simpl; constructor).
    unfold on_ffmpeg_close.
    destruct (Js.is_zero _ && existsSync _ w); [simpl; constructor|].
    destruct (has_fallback (job_rev j)); [|simpl; repeat constructor].
    destruct rest as [|fmt' rest']; simpl; repeat constructor.
  - destruct e; simpl;
      try (destruct (has_fallback (job_rev j)); simpl; constructor).
    unfold on_download_done.
    destruct r as [|hs]; simpl; [constructor|].
    destruct (has_fallback (job_rev j) || hs); simpl; repeat constructor.
  - destruct e; simpl; try constructor. destruct k; simpl; constructor.
Qed.

Lemma run_statuses (P : platform) (E : environment) (evs : list event) :
  ∀ (w : world) (s : state),
    Forall (λ z, z = 500%Z) (statuses (effects_of (run P E w s evs))).
Proof.
  induction evs as [|e evs IH]; intros w s; simpl; [constructor|].
  pose proof (step_statuses P E w s e) as Hstep.
  destruct (step P E w s e) as [[w1 s1] fx1].
  specialize (IH w1 s1).
  destruct (run P E w1 s1 evs) as [[w2 s2] fx2].
  unfold effects_of, statuses in *. simpl in *.
  rewrite omap_app. apply Forall_app. split; assumption.
Qed.

(** C8 (code): the request [GET /high/id=], whose identifier is empty,
    matches no route: Express answers it 404 and the handler, whose guard
    would answer 400 "Missing id", is not called.  The same holds for
    every quality segment.  The route calls the handler with an identifier
    of one character at least, so that no request at all is answered
    400. *)
Theorem empty_id_is_not_routed (P : platform) (E : environment)
    (rev : revision) (w : world) (evs : list event) :
  route "/high/id=" = NotFound
  ∧ effects_of (app_get P E rev "/high/id=" w evs)
    = [ Respond 404 "Cannot GET /high/id=" ]
  ∧ (∀ q, "/"%char ∉ list_ascii_of_string q →
       route ("/" +:+ q +:+ "/id=") = NotFound)
  ∧ (∀ path req,
       route path = ToHandler req →
       ∃ q i, req = {| quality := Some q; id := Some i |} ∧ q ≠ "" ∧ i ≠ "")
  ∧ (∀ path, 400%Z ∉ statuses (effects_of (app_get P E rev path w evs)))
  ∧ (∀ req, Js.falsy (id req) = true →
       effects_of (handle P E rev req w evs) = [ Respond 400 "Missing id" ]).
Proof.
  assert (Hroute : ∀ path req,
            route path = ToHandler req →
            ∃ q i, req = {| quality := Some q; id := Some i |}
                   ∧ q ≠ "" ∧ i ≠ "").
  { intros path req. unfold route.
    destruct (match_params path) as [req'|] eqn:Hm.
    - intros Hreq. injection Hreq as <-.
      apply (match_params_not_empty path). exact Hm.
    - destruct (String.eqb path "/"); discriminate. }
  split; [reflexivity|]. split; [reflexivity|].
  split; [|split; [exact Hroute|split]].
  - intros q Hq. unfold route.
    change ("/" +:+ q +:+ "/id=") with (String "/" (q +:+ String "/" "id=")).
    unfold match_params. simpl Ascii.eqb. cbv iota.
    rewrite (segment_append q "id=" Hq). simpl segment. cbv beta iota zeta.
    change (Js.truthy (drop_string 3 "id=")) with false.
    rewrite andb_false_r. simpl.
    destruct q; reflexivity.
  - intros path Hin. unfold app_get in Hin.
    destruct (route path) as [req| |] eqn:Hr.
    + destruct (Hroute path req Hr) as (q & i & -> & _ & Hi).
      unfold handle, start in Hin. simpl in Hin.
      apply truthy_true in Hi. rewrite Hi in Hin.
      pose proof (run_statuses P E evs w (AwaitMeta rev (Some q) i fetch_init))
        as Hall.
      destruct (run P E w _ evs) as [[w' s'] fx].
      unfold effects_of, statuses in *. simpl in *.
      rewrite Forall_forall in Hall.
      specialize (Hall _ Hin). discriminate Hall.
    + unfold effects_of, statuses in Hin. simpl in Hin.
      apply elem_of_cons in Hin as [Hin|Hin];
        [discriminate Hin | inversion Hin].
    + unfold effects_of, statuses in Hin. simpl in Hin.
      apply elem_of_cons in Hin as [Hin|Hin];
        [discriminate Hin | inversion Hin].
  - intros req Hid. rewrite (guard_answers_missing_id P E rev req w evs Hid).
    reflexivity.
Qed.

(** ** Output file name *)

Lemma safeTitle_spec (P : platform) (settled : promise) :
  safeTitle P settled =
  match metadata_title settled with
  | Some t => if Js.truthy t then Some (Js.slice0 120 (sanitize P t)) else None
  | None => None
  end.
Proof.
  destruct settled as [|meta|err]; try reflexivity.
  destruct meta as [|b|n|s|items|fields]; simpl; try reflexivity.
  - destruct b; reflexivity.
  - destruct (negb (n =? 0)%Z); reflexivity.
  - destruct (Js.truthy s); reflexivity.
  - destruct (Js.assoc "title" fields) as [[|b|n|s|items|fields']|]; simpl;
      try reflexivity.
    + destruct b; reflexivity.
    + destruct (negb (n =? 0)%Z); reflexivity.
Qed.

Lemma base_spec (P : platform) (title : option string) (idParam : string) :
  base P title idParam =
  match title with
  | Some t =>
      if Js.truthy t then t
      else if is_video_id idParam then idParam
           else Js.slice0 40 (sanitize P idParam)
  | None =>
      if is_video_id idParam then idParam
      else Js.slice0 40 (sanitize P idParam)
  end.
Proof. destruct title as [t|]; reflexivity. Qed.

(** C6 (amended): the file name is [base-quality-timestamp.mp3]; the base
    is the sanitized title cut at 120 characters when the metadata
    delivered a non-empty title string whose sanitized, cut form is not
    empty; otherwise the identifier itself when it is ID-shaped, else the
    sanitized identifier cut at 40 characters.  The job of the request
    carries that name and its path in the download directory. *)
Theorem output_filename (P : platform) (settled : promise)
    (idParam : string) (q : option string) (ts : Z) :
  let name := filename P (safeTitle P settled) idParam q ts in
  let suffix := "-" +:+ qualityKey q +:+ "-" +:+ Js.of_number ts +:+ ".mp3" in
  let usable t := t ≠ "" ∧ Js.slice0 120 (sanitize P t) ≠ "" in
  (∀ t, metadata_title settled = Some t → usable t →
        name = Js.slice0 120 (sanitize P t) +:+ suffix)
  ∧ ((∀ t, metadata_title settled = Some t → ¬ usable t) →
     is_video_id idParam = true → name = idParam +:+ suffix)
  ∧ ((∀ t, metadata_title settled = Some t → ¬ usable t) →
     is_video_id idParam = false →
     name = Js.slice0 40 (sanitize P idParam) +:+ suffix)
  ∧ (∀ E rev w j,
     job_of (state_of (proceed P E rev q idParam (safeTitle P settled) w))
     = Some j →
     job_filename j = filename P (safeTitle P settled) idParam q (now w)
     ∧ job_filePath j = path_join P (path_join P (dirname P) "downloads")
                          (job_filename j)).
Proof.
  intros name suffix usable. subst name suffix. unfold filename.
  rewrite base_spec, safeTitle_spec.
  assert (Hno : (∀ t, metadata_title settled = Some t → ¬ usable t) →
    match
      match metadata_title settled with
      | Some t =>
          if Js.truthy t then Some (Js.slice0 120 (sanitize P t)) else None
      | None => None
      end
    with
    | Some t =>
        if Js.truthy t then t
        else if is_video_id idParam then idParam
             else Js.slice0 40 (sanitize P idParam)
    | None =>
        if is_video_id idParam then idParam
        else Js.slice0 40 (sanitize P idParam)
    end
    = if is_video_id idParam then idParam
      else Js.slice0 40 (sanitize P idParam)).
  { intros Hun. destruct (metadata_title settled) as [t|]; [|reflexivity].
    destruct (Js.truthy t) eqn:Ht; [|reflexivity].
    destruct (Js.truthy (Js.slice0 120 (sanitize P t))) eqn:Hs; [|reflexivity].
    exfalso. apply (Hun t eq_refl). split; apply truthy_true; assumption. }
  split; [|split; [|split]].
  - intros t Ht [Hne Hcut]. rewrite Ht.
    apply truthy_true in Hne. apply truthy_true in Hcut.
    rewrite Hne, Hcut. reflexivity.
  - intros Hun Hid. rewrite (Hno Hun), Hid. reflexivity.
  - intros Hun Hid. rewrite (Hno Hun), Hid. reflexivity.
  - intros E rev w j. unfold proceed, state_of, filePath, DOWNLOAD_DIR.
    rewrite <- safeTitle_spec.
    destruct (existsSync _ w); destruct rev; simpl;
      intros Hj; inversion Hj; split; reflexivity.
Qed.

Lemma output_filename_witness :
  filename ref_platform
    (safeTitle ref_platform
       (Resolved (Js.JObj [ ("title", Js.JStr "Never Gonna: Give?") ])))
    "dQw4w9WgXcQ" (Some "HIGH") 1700000000000
  = "Never Gonna Give-high-1700000000000.mp3"
  ∧ filename ref_platform (safeTitle ref_platform (Resolved Js.JNull))
      "dQw4w9WgXcQ" (Some "low") 1700000000000
    = "dQw4w9WgXcQ-low-1700000000000.mp3"
  ∧ filename ref_platform (safeTitle ref_platform (Resolved Js.JNull))
      "what is <love>?" None 1700000000000
    = "what is love-high-1700000000000.mp3".
Proof.
  split.
  { apply (proj1 (output_filename ref_platform
                    (Resolved (Js.JObj [ ("title", Js.JStr "Never Gonna: Give?") ]))
                    "dQw4w9WgXcQ" (Some "HIGH") 1700000000000)
             "Never Gonna: Give?").
    - reflexivity.
    - split; vm_compute; discriminate. }
  split.
  { apply (proj1 (proj2 (output_filename ref_platform (Resolved Js.JNull)
                           "dQw4w9WgXcQ" (Some "low") 1700000000000))).
    - intros t Ht. vm_compute in Ht. discriminate.
    - reflexivity. }
  apply (proj1 (proj2 (proj2 (output_filename ref_platform (Resolved Js.JNull)
                                "what is <love>?" None 1700000000000)))).
  - intros t Ht. vm_compute in Ht. discriminate.
  - reflexivity.
Defined.

(** C6 as stated fails: the metadata of a video titled "?" is fetched and
    parsed, the sanitized title is empty, and the file is named after the
    identifier, not after the (empty) sanitized title. *)
Lemma filename_falls_back_on_empty_sanitized_title :
  let settled :=
    fetchMetadata ref_platform RevPart002
      [ MetaData (title_doc "?"); MetaClose (Some 0%Z) ] in
  metadata_title settled = Some "?"
  ∧ filename ref_platform (safeTitle ref_platform settled) "dQw4w9WgXcQ"
      (Some "high") 1700000000000
    = "dQw4w9WgXcQ-high-1700000000000.mp3"
  ∧ filename ref_platform (safeTitle ref_platform settled) "dQw4w9WgXcQ"
      (Some "high") 1700000000000
    ≠ Js.slice0 120 (sanitize ref_platform "?")
      +:+ "-" +:+ "high" +:+ "-" +:+ Js.of_number 1700000000000 +:+ ".mp3".
Proof.
  vm_compute. repeat split; discriminate.
Qed.

(** ** Metadata fetcher *)

Lemma proceed_goes_on (P : platform) (E : environment) (rev : revision)
    (q : option string) (idParam : string) (title : option string)
    (w : world) :
  filter is_respond (effects_of (proceed P E rev q idParam title w)) = []
  ∧ effects_of (proceed P E rev q idParam title w) ≠ []
  ∧ (∀ rev' q' id' st,
       state_of (proceed P E rev q idParam title w) ≠ AwaitMeta rev' q' id' st).
Proof.
  unfold proceed, effects_of, state_of.
  destruct (existsSync _ w); destruct rev; simpl;
    repeat split; try reflexivity; try discriminate; intros; discriminate.
Qed.

(** C7 (amended): a metadata process that exits with a code other than
    0, prints nothing or prints what does not parse resolves the fetch to
    [null] in every revision; a spawn failure resolves it to [null] in
    src/unnamed/part_002 and rejects it with the error in src/index.js and
    in the script of src/Dockerfile (where the declaration of
    [fetchMetadata] in force is the later, rejecting one); the handler
    catches the rejection.  In all four cases and every revision the
    request has no title and goes on to the cache check without an error
    answer. *)
Theorem metadata_failure_no_title (P : platform) (E : environment)
    (rev : revision) (q : option string) (idParam : string)
    (st : fetch_state) (w : world) (e : event) :
  result st = Pending →
  metadata_failure P st e →
  (∀ code, e = MetaClose code →
     result (fetch_step P rev st e) = Resolved Js.JNull)
  ∧ (∀ msg, e = MetaError msg →
     result (fetch_step P rev st e)
     = match rev with
       | RevPart002 => Resolved Js.JNull
       | RevIndex | RevDockerfile => Rejected msg
       end)
  ∧ safeTitle P (result (fetch_step P rev st e)) = None
  ∧ step P E w (AwaitMeta rev q idParam st) e
    = proceed P E rev q idParam None w
  ∧ filter is_respond (effects_of (proceed P E rev q idParam None w)) = []
  ∧ effects_of (proceed P E rev q idParam None w) ≠ [].
Proof.
  intros Hpending Hfail.
  assert (Hres : result (fetch_step P rev st e) = Resolved Js.JNull
                 ∨ ∃ msg, e = MetaError msg ∧ fetch_rejects rev = true
                          ∧ result (fetch_step P rev st e) = Rejected msg).
  { destruct e; simpl in Hfail; try contradiction.
    - left. simpl. unfold fetch_on_close. simpl. rewrite Hpending. simpl.
      destruct Hfail as [Hcode | [Hout | Hparse]].
      + rewrite Hcode. reflexivity.
      + rewrite Hout. rewrite andb_false_r. reflexivity.
      + rewrite Hparse. destruct (Js.is_zero code && Js.truthy (out st));
          reflexivity.
    - simpl. unfold fetch_on_error. simpl. rewrite Hpending. simpl.
      destruct (fetch_rejects rev) eqn:Hrev; [|left; reflexivity].
      right. exists msg. repeat split. }
  assert (Htitle : safeTitle P (result (fetch_step P rev st e)) = None).
  { destruct Hres as [-> | (msg & _ & _ & ->)]; reflexivity. }
  split; [|split; [|split; [|split]]].
  - intros code ->. destruct Hres as [H | (msg & Hm & _)];
      [exact H | discriminate].
  - intros msg ->. simpl. unfold fetch_on_error. simpl.
    rewrite Hpending. destruct rev; reflexivity.
  - exact Htitle.
  - assert (Hw : ∀ p, e ≠ FileWritten p) by
      (intros p ->; simpl in Hfail; contradiction).
    assert (Ht : ∀ t, e ≠ ClockTick t) by
      (intros t ->; simpl in Hfail; contradiction).
    destruct Hres as [H | (msg & Hm & Hrev & H)].
    + destruct e; simpl in Hfail; try contradiction;
        unfold step; rewrite H; reflexivity.
    + subst e. unfold step. rewrite H. reflexivity.
  - pose proof (proceed_goes_on P E rev q idParam None w) as (H1 & H2 & _).
    split; assumption.
Qed.

Lemma metadata_failure_no_title_witness :
  step ref_platform no_cookies (empty_world 1700000000000)
    (AwaitMeta RevIndex (Some "low") "dQw4w9WgXcQ"
       {| out := "oops"; result := Pending |})
    (MetaClose (Some 0%Z))
  = proceed ref_platform no_cookies RevIndex (Some "low") "dQw4w9WgXcQ" None
      (empty_world 1700000000000).
Proof.
  apply (metadata_failure_no_title ref_platform no_cookies RevIndex
           (Some "low") "dQw4w9WgXcQ" {| out := "oops"; result := Pending |}
           (empty_world 1700000000000) (MetaClose (Some 0%Z))).
  - reflexivity.
  - simpl. right. right. reflexivity.
Defined.

(** C7 as stated fails in src/index.js (and likewise in the script of
    src/Dockerfile): when the metadata process cannot be spawned, the fetch
    is rejected with the error instead of resolving to [null]. *)
Lemma index_fetch_rejects_on_spawn_failure :
  fetchMetadata ref_platform RevIndex [ MetaError "spawn yt-dlp ENOENT" ]
  = Rejected "spawn yt-dlp ENOENT"
  ∧ fetchMetadata ref_platform RevIndex [ MetaError "spawn yt-dlp ENOENT" ]
    ≠ Resolved Js.JNull.
Proof.
  split; [reflexivity | discriminate].
Qed.

(** ** Cache hit *)

Lemma run_sending_waits (P : platform) (E : environment) (j : job)
    (w : world) (evs : list event) :
  has_fallback (job_rev j) = true →
  Forall (λ e, ∀ r, e ≠ DownloadDone r) evs →
  run P E w (Sending j) evs = (fold_left observe evs w, Sending j, []).
Proof.
  intros Hrev Hevs. revert w.
  induction Hevs as [|e evs He Hevs IH]; intros w; simpl; [reflexivity|].
  destruct e; simpl; try (rewrite IH; reflexivity).
  - rewrite Hrev, IH. reflexivity.
  - exfalso. apply (He r). reflexivity.
Qed.

(** C9 (amended): when the computed file is already there, it is sent at
    once and no process is spawned for the request from then on; in the
    fallback revisions its deletion is scheduled one retention window
    after the transfer has ended without error, and not scheduled when
    the transfer fails. *)
Theorem cache_hit_served (P : platform) (E : environment) (rev : revision)
    (q : option string) (idParam : string) (title : option string)
    (w : world) :
  let name := filename P title idParam q (now w) in
  let r := proceed P E rev q idParam title w in
  filePath P name ∈ fs w →
  effects_of r
  = [ Download (filePath P name) (if has_fallback rev then Some name else None) ]
  ∧ world_of r = w
  ∧ (∀ evs, spawns (effects_of (run P E w (state_of r) evs)) = [])
  ∧ (has_fallback rev = true →
     ∀ evs, Forall (λ e, ∀ d, e ≠ DownloadDone d) evs →
       effects_of (run P E w (state_of r) (evs ++ [ DownloadDone Sent ]))
       = [ SetTimeout ONE_HOUR_MS (filePath P name) ]
       ∧ ∀ hs, effects_of (run P E w (state_of r)
                             (evs ++ [ DownloadDone (SendFailed hs) ])) = []).
Proof.
  intros name r Hin. subst r. unfold proceed. fold name.
  assert (Hex : existsSync (filePath P name) w = true)
    by (apply bool_decide_eq_true; exact Hin).
  rewrite Hex.
  assert (Hwait : ∀ j evs d,
            has_fallback (job_rev j) = true →
            Forall (λ e, ∀ d, e ≠ DownloadDone d) evs →
            effects_of (run P E w (Sending j) (evs ++ [ DownloadDone d ]))
            = on_download_done j d).
  { intros j evs d Hrev Hevs.
    rewrite run_app, run_sending_waits by assumption.
    simpl. rewrite app_nil_r. reflexivity. }
  destruct rev; unfold effects_of, world_of, state_of; simpl;
    (split; [reflexivity|]); (split; [reflexivity|]); split.
  - intros evs. apply (proj1 (run_done_no_spawn P E false w evs)).
  - discriminate.
  - intros evs. apply run_sending_no_spawn.
  - intros _ evs Hevs. split; [|intros hs];
      (refine (Hwait _ evs _ _ Hevs); reflexivity).
  - intros evs. apply run_sending_no_spawn.
  - intros _ evs Hevs. split; [|intros hs];
      (refine (Hwait _ evs _ _ Hevs); reflexivity).
Qed.

Lemma cache_hit_served_witness :
  let w := {| fs := {[ "/app/downloads/dQw4w9WgXcQ-high-1700000000000.mp3" ]};
              now := 1700000000000 |} in
  effects_of (proceed ref_platform no_cookies RevPart002 (Some "high")
                "dQw4w9WgXcQ" None w)
  = [ Download "/app/downloads/dQw4w9WgXcQ-high-1700000000000.mp3"
        (Some "dQw4w9WgXcQ-high-1700000000000.mp3") ].
Proof.
  apply (cache_hit_served ref_platform no_cookies RevPart002 (Some "high")
           "dQw4w9WgXcQ" None
           {| fs := {[ "/app/downloads/dQw4w9WgXcQ-high-1700000000000.mp3" ]};
              now := 1700000000000 |}).
  vm_compute. reflexivity.
Defined.

(** C9 as stated fails: the file is there, it is sent, the transfer ends
    with an error, and no deletion is ever scheduled. *)
Lemma cache_hit_failed_transfer_not_scheduled :
  let w := {| fs := {[ "/app/downloads/dQw4w9WgXcQ-high-1700000000000.mp3" ]};
              now := 1700000000000 |} in
  let r := handle ref_platform no_cookies RevPart002
             {| quality := Some "high"; id := Some "dQw4w9WgXcQ" |} w
             [ MetaClose (Some 1%Z); DownloadDone (SendFailed true) ] in
  effects_of r
  = [ Spawn "yt-dlp"
        [ "-j"; "--no-warnings"; "https://www.youtube.com/watch?v=dQw4w9WgXcQ" ];
      Download "/app/downloads/dQw4w9WgXcQ-high-1700000000000.mp3"
        (Some "dQw4w9WgXcQ-high-1700000000000.mp3") ]
  ∧ filter is_timeout (effects_of r) = []
  ∧ state_of r = Done false.
Proof.
  vm_compute. repeat split.
Qed.

(** ** Cookies *)

Lemma cookies_not_declared (rev : revision) :
  "--cookies" ∉ commonYtdlArgs_declared rev.
Proof.
  intros Hin. apply list_elem_of_In in Hin.
  destruct rev; simpl in Hin;
    repeat (destruct Hin as [Hin|Hin]; [discriminate Hin|]); exact Hin.
Qed.

Lemma cookies_not_format (fmt : string) :
  fmt ∈ formatsToTry → "--cookies" ≠ fmt.
Proof.
  intros Hin Heq. subst fmt. apply list_elem_of_In in Hin. simpl in Hin.
  repeat (destruct Hin as [Hin|Hin]; [discriminate Hin|]). exact Hin.
Qed.

Lemma cookies_not_url (idParam : string) : "--cookies" ≠ videoUrl idParam.
Proof.
  intros Heq. pose proof (videoUrl_starts_http idParam) as Hp.
  rewrite <- Heq in Hp. discriminate Hp.
Qed.

(** C10: the arguments of an extraction process contain [--cookies]
    exactly when USE_COOKIES lowercases to [true] and the cookies file
    exists when the request is handled; otherwise they are the declared
    common arguments around the selector and the URL. *)
Theorem cookies_option (P : platform) (E : environment) (rev : revision)
    (w : world) (fmt : string) (idParam : string) :
  has_fallback rev = true →
  fmt ∈ formatsToTry →
  let args := ytdlArgs fmt (commonYtdlArgs P E rev w) (videoUrl idParam) in
  let file := Js.or_else (COOKIES_FILE E) "./cookies.txt" in
  let enabled :=
    Js.toLowerCase (Js.or_else (USE_COOKIES E) "") = "true"
    ∧ path_join P (dirname P) file ∈ fs w in
  ("--cookies" ∈ args ↔ enabled)
  ∧ (enabled →
     args = ytdlArgs fmt (commonYtdlArgs_declared rev ++ [ "--cookies"; file ])
              (videoUrl idParam))
  ∧ (¬ enabled →
     args = ytdlArgs fmt (commonYtdlArgs_declared rev) (videoUrl idParam))
  ∧ (∀ q title j,
     job_of (state_of (proceed P E rev q idParam title w)) = Some j →
     job_common j = commonYtdlArgs P E rev w
     ∧ attempt_spawns j fmt
       = [ Spawn "yt-dlp" args;
           Spawn "ffmpeg" (ffmpegArgs (job_bitrate j) (job_filePath j)) ]).
Proof.
  intros Hrev Hfmt args file enabled.
  assert (Hdec : useCookies E && existsSync (cookiesPath P E) w = true
                 ↔ enabled).
  { unfold useCookies, existsSync, cookiesPath, cookiesFile, enabled, file.
    rewrite andb_true_iff, String.eqb_eq, bool_decide_eq_true. reflexivity. }
  assert (Hon : enabled →
    commonYtdlArgs P E rev w
    = (commonYtdlArgs_declared rev ++ [ "--cookies"; file ])%list).
  { intros Hen. apply Hdec in Hen. unfold commonYtdlArgs. rewrite Hen.
    reflexivity. }
  assert (Hoff : ¬ enabled →
    commonYtdlArgs P E rev w = commonYtdlArgs_declared rev).
  { intros Hen. unfold commonYtdlArgs.
    destruct (useCookies E && existsSync (cookiesPath P E) w) eqn:Hb.
    - exfalso. apply Hen, Hdec. reflexivity.
    - apply app_nil_r. }
  split; [|split; [|split]].
  - split.
    + intros Hin.
      destruct (useCookies E && existsSync (cookiesPath P E) w) eqn:Hb;
        [apply Hdec; reflexivity|].
      assert (Hen : ¬ enabled)
        by (intros Hen; apply Hdec in Hen; discriminate Hen).
      exfalso. subst args. rewrite (Hoff Hen) in Hin. unfold ytdlArgs in Hin.
      rewrite !elem_of_app in Hin. destruct Hin as [Hin | [Hin | Hin]].
      * apply list_elem_of_In in Hin. simpl in Hin.
        destruct Hin as [Hin | [Hin | [Hin | [Hin | Hin]]]];
          try discriminate Hin; try contradiction.
        symmetry in Hin. exact (cookies_not_format fmt Hfmt Hin).
      * exact (cookies_not_declared rev Hin).
      * apply list_elem_of_singleton in Hin.
        exact (cookies_not_url idParam Hin).
    + intros Hen. subst args. rewrite (Hon Hen). unfold ytdlArgs.
      rewrite !elem_of_app. right. left. right. apply list_elem_of_here.
  - intros Hen. subst args. rewrite (Hon Hen). reflexivity.
  - intros Hen. subst args. rewrite (Hoff Hen). reflexivity.
  - intros q title j. unfold proceed, state_of, attempt_spawns.
    destruct (existsSync (filePath P _) w); destruct rev;
      try discriminate Hrev; simpl;
      intros Hj; inversion Hj; split; reflexivity.
Qed.

Lemma cookies_option_witness :
  let w := {| fs := {[ "/app/./cookies.txt" ]}; now := 0 |} in
  "--cookies"
  ∈ ytdlArgs "bestaudio" (commonYtdlArgs ref_platform with_cookies RevPart002 w)
      (videoUrl "dQw4w9WgXcQ")
  ∧ ytdlArgs "bestaudio"
      (commonYtdlArgs ref_platform no_cookies RevDockerfile w)
      (videoUrl "dQw4w9WgXcQ")
    = ytdlArgs "bestaudio" (commonYtdlArgs_declared RevDockerfile)
        (videoUrl "dQw4w9WgXcQ").
Proof.
  split.
  - apply (proj1 (cookies_option ref_platform with_cookies RevPart002
                    {| fs := {[ "/app/./cookies.txt" ]}; now := 0 |}
                    "bestaudio" "dQw4w9WgXcQ" eq_refl ltac:(in_list))).
    split; [reflexivity | vm_compute; reflexivity].
  - apply (proj1 (proj2 (proj2
             (cookies_option ref_platform no_cookies RevDockerfile
                {| fs := {[ "/app/./cookies.txt" ]}; now := 0 |}
                "bestaudio" "dQw4w9WgXcQ" eq_refl ltac:(in_list))))).
    intros [Hon _]. vm_compute in Hon. discriminate Hon.
Defined.

(** ** One attempt *)

Lemma is_zero_spec (code : option Z) : Js.is_zero code = true ↔ code = Some 0%Z.
Proof.
  destruct code as [z|]; simpl; [|split; discriminate].
  rewrite Z.eqb_eq. split; [intros ->; reflexivity | intros H; inversion H; reflexivity].
Qed.

Lemma cleanup_fs (p : string) (w : world) :
  fs (cleanup p w) = fs w ∖ {[ p ]} ∧ now (cleanup p w) = now w.
Proof.
  unfold cleanup, unlinkSync. destruct (existsSync p w) eqn:Hex; simpl.
  - split; reflexivity.
  - split; [|reflexivity]. apply bool_decide_eq_false in Hex.
    apply leibniz_equiv. intros x. rewrite elem_of_difference, elem_of_singleton.
    split; [|intros [Hx _]; exact Hx].
    intros Hx. split; [exact Hx|]. intros ->. contradiction.
Qed.

Lemma cleanup_removes (p : string) (w : world) : p ∉ fs (cleanup p w).
Proof.
  rewrite (proj1 (cleanup_fs p w)), elem_of_difference, elem_of_singleton.
  intros [_ Hne]. apply Hne. reflexivity.
Qed.

Lemma next_attempt_world (P : platform) (j : job) (fmts : list string)
    (t : string) (w : world) :
  world_of (next_attempt j fmts t w) = w
  ∧ state_of (next_attempt j fmts t w) ≠ Sending j
  ∧ (∀ p n, Download p n ∉ effects_of (next_attempt j fmts t w)).
Proof.
  unfold next_attempt, attempt_spawns, world_of, state_of, effects_of.
  destruct fmts as [|fmt rest]; simpl; repeat split; try discriminate;
    intros p n Hin; apply list_elem_of_In in Hin; simpl in Hin;
    repeat (destruct Hin as [Hin|Hin]; [discriminate Hin|]); exact Hin.
Qed.

(** C2: an attempt is reported as a success exactly when the transcoder
    has exited with code 0 and the output file is there; a success leaves
    the file in place, and a failed attempt removes whatever is at the
    path before the handler goes on, so that no file is left there. *)
Theorem attempt_outcome (P : platform) (E : environment) (w : world)
    (j : job) (fmt : string) (rest : list string) (y f t : string)
    (code : option Z) :
  let path := job_filePath j in
  let r := step P E w (Converting j fmt rest y f t) (FfmpegClose code) in
  let success :=
    state_of r = Sending j
    ∧ effects_of r = [ Download path (Some (job_filename j)) ] in
  (success ↔ code = Some 0%Z ∧ path ∈ fs w)
  ∧ (success → world_of r = w ∧ path ∈ fs (world_of r))
  ∧ (¬ success →
     (path ∉ fs (world_of r))
     ∧ fs (world_of r) = fs w ∖ {[ path ]}
     ∧ ∀ p n, Download p n ∉ effects_of r).
Proof.
  intros path r success. subst r success. simpl. unfold on_ffmpeg_close.
  fold path.
  destruct (Js.is_zero code && existsSync path w) eqn:Hok.
  - apply andb_true_iff in Hok as [Hcode Hex].
    apply is_zero_spec in Hcode. apply bool_decide_eq_true in Hex.
    unfold state_of, effects_of, world_of. simpl.
    split; [|split].
    + split; [intros _; split; assumption | intros _; split; reflexivity].
    + intros _. split; [reflexivity | exact Hex].
    + intros Hn. exfalso. apply Hn. split; reflexivity.
  - assert (Hcond : ¬ (code = Some 0%Z ∧ path ∈ fs w)).
    { intros [Hcode Hex]. apply is_zero_spec in Hcode.
      apply (bool_decide_eq_true_2 _) in Hex.
      unfold existsSync in Hok. rewrite Hcode, Hex in Hok. discriminate Hok. }
    destruct (has_fallback (job_rev j)).
    + pose proof (next_attempt_world P j rest
                    (t +:+ attempt_report fmt y f code) (cleanup path w))
        as (Hw & Hs & Hd).
      assert (Hfail : ¬ (state_of (next_attempt j rest
                                     (t +:+ attempt_report fmt y f code)
                                     (cleanup path w)) = Sending j
                         ∧ effects_of (next_attempt j rest
                                         (t +:+ attempt_report fmt y f code)
                                         (cleanup path w))
                           = [ Download path (Some (job_filename j)) ]))
        by (intros [Hst _]; contradiction).
      split; [|split].
      * split; [intros H; contradiction | intros H; contradiction].
      * intros H; contradiction.
      * intros _. rewrite Hw. split; [apply cleanup_removes|].
        split; [apply cleanup_fs | exact Hd].
    + unfold state_of, effects_of, world_of. simpl.
      split; [|split].
      * split; [intros [H _]; discriminate H | intros H; contradiction].
      * intros [H _]; discriminate H.
      * intros _. split; [apply cleanup_removes|].
        split; [apply cleanup_fs|].
        intros p n Hin. apply list_elem_of_In in Hin. simpl in Hin.
        destruct Hin as [Hin|Hin]; [discriminate Hin | exact Hin].
Qed.

Lemma attempt_outcome_witness :
  let j := {| job_rev := RevPart002; job_url := videoUrl "dQw4w9WgXcQ";
              job_bitrate := "320k"; job_filename := "a.mp3";
              job_filePath := "/app/downloads/a.mp3"; job_common := [] |} in
  let w := {| fs := {[ "/app/downloads/a.mp3" ]}; now := 0 |} in
  "/app/downloads/a.mp3"
  ∉ fs (world_of (step ref_platform no_cookies w
                    (Converting j "bestaudio" [] "" "" "")
                    (FfmpegClose (Some 1%Z)))).
Proof.
  apply (proj2 (proj2 (attempt_outcome ref_platform no_cookies
           {| fs := {[ "/app/downloads/a.mp3" ]}; now := 0 |}
           {| job_rev := RevPart002; job_url := videoUrl "dQw4w9WgXcQ";
              job_bitrate := "320k"; job_filename := "a.mp3";
              job_filePath := "/app/downloads/a.mp3"; job_common := [] |}
           "bestaudio" [] "" "" "" (Some 1%Z)))).
  vm_compute. intros [H _]. discriminate H.
Defined.

(** ** Disconnect *)

Lemma proceed_fallback_state (P : platform) (E : environment)
    (rev : revision) (q : option string) (idParam : string)
    (title : option string) (w : world) :
  has_fallback rev = true →
  fallback_state (state_of (proceed P E rev q idParam title w)) = true
  ∧ filter is_kill (effects_of (proceed P E rev q idParam title w)) = [].
Proof.
  intros Hrev. unfold proceed, state_of, effects_of.
  destruct (existsSync (filePath P _) w); destruct rev;
    try discriminate Hrev; simpl; split; reflexivity.
Qed.

Lemma step_fallback_state (P : platform) (E : environment) (w : world)
    (s : state) (e : event) :
  fallback_state s = true →
  fallback_state (state_of (step P E w s e)) = true
  ∧ filter is_kill (effects_of (step P E w s e)) = [].
Proof.
  intros Hs. unfold state_of, effects_of.
  destruct s as [rev q idParam st | j fmt rest y f t | j | k]; simpl in Hs.
  - assert (Hgo : ∀ title,
              fallback_state (state_of (proceed P E rev q idParam title w))
              = true
              ∧ filter is_kill
                  (effects_of (proceed P E rev q idParam title w)) = [])
      by (intros title; apply proceed_fallback_state; exact Hs).
    destruct e; cbv beta iota zeta delta [step];
      try (split; [exact Hs | reflexivity]);
      (destruct (result (fetch_step P rev st _));
       [split; [exact Hs | reflexivity] | apply Hgo ..]).
  - destruct e; simpl; rewrite ?Hs;
      try (split; [first [exact Hs | reflexivity] | reflexivity]).
    unfold on_ffmpeg_close.
    destruct (Js.is_zero _ && existsSync _ w);
      [split; [exact Hs | reflexivity]|].
    rewrite Hs. unfold next_attempt.
    destruct rest as [|fmt' rest']; simpl; split; trivial.
  - destruct e; simpl; rewrite ?Hs;
      try (split; [first [exact Hs | reflexivity] | reflexivity]).
    split; [reflexivity|]. unfold on_download_done.
    destruct r as [|hs]; simpl; [reflexivity|]. rewrite Hs. reflexivity.
  - destruct e; simpl; try (split; [exact Hs | reflexivity]).
    destruct k; [discriminate Hs | split; reflexivity].
Qed.

(** The fallback revisions never send a signal to a child process. *)
Lemma fallback_never_kills (P : platform) (E : environment) (w : world)
    (s : state) (evs : list event) :
  fallback_state s = true →
  filter is_kill (effects_of (run P E w s evs)) = [].
Proof.
  revert w s. induction evs as [|e evs IH]; intros w s Hs; simpl;
    [reflexivity|].
  pose proof (step_fallback_state P E w s e Hs) as [Hs1 Hk1].
  destruct (step P E w s e) as [[w1 s1] fx1].
  specialize (IH w1 s1 Hs1).
  destruct (run P E w1 s1 evs) as [[w2 s2] fx2].
  unfold effects_of, state_of in *. simpl in *.
  rewrite filter_app, Hk1, IH. reflexivity.
Qed.

(** src/index.js answers a disconnect during the conversion by killing
    both processes. *)
Lemma index_kills_on_disconnect (P : platform) (E : environment) (w : world)
    (j : job) (fmt : string) (rest : list string) (y f t : string) :
  has_fallback (job_rev j) = false →
  step P E w (Converting j fmt rest y f t) ReqClose
  = (w, Converting j fmt rest y f t,
     [ Kill Extractor "SIGKILL"; Kill Transcoder "SIGKILL" ]).
Proof. intros Hrev. simpl. rewrite Hrev. reflexivity. Qed.

(** C3 fails in the fallback revisions: the caller disconnects during the
    first attempt, no process is killed, and when that attempt fails the
    second selector is tried. *)
Theorem fallback_goes_on_after_disconnect :
  let r := handle ref_platform no_cookies RevPart002
             {| quality := Some "high"; id := Some "dQw4w9WgXcQ" |}
             (empty_world 1700000000000)
             [ MetaClose (Some 1%Z); ReqClose; FfmpegClose (Some 1%Z) ] in
  filter is_kill (effects_of r) = []
  ∧ selectors (effects_of r)
    = [ "bestaudio[ext=m4a]/bestaudio"; "bestaudio[protocol^=https]/bestaudio" ]
  ∧ (∀ P E rev req w evs, has_fallback rev = true →
       filter is_kill (effects_of (handle P E rev req w evs)) = []).
Proof.
  split; [vm_compute; reflexivity|].
  split; [vm_compute; reflexivity|].
  intros P E rev req w evs Hrev. unfold handle, start.
  destruct (id req) as [idParam|].
  - destruct (Js.truthy idParam).
    + pose proof (fallback_never_kills P E w
                    (AwaitMeta rev (quality req) idParam fetch_init) evs Hrev)
        as Hk.
      destruct (run P E w _ evs) as [[w' s'] fx]. exact Hk.
    + rewrite run_done. reflexivity.
  - rewrite run_done. reflexivity.
Qed.

(** ** Format fallback controller *)

Lemma append_assoc (a b c : string) : (a +:+ b) +:+ c = a +:+ (b +:+ c).
Proof.
  induction a as [|x a IH]; [reflexivity|].
  change (String x ((a +:+ b) +:+ c) = String x (a +:+ (b +:+ c))).
  rewrite IH. reflexivity.
Qed.

Lemma append_empty_r (a : string) : a +:+ "" = a.
Proof.
  induction a as [|x a IH]; [reflexivity|].
  change (String x (a +:+ "") = String x a). rewrite IH. reflexivity.
Qed.

Section Controller.

Variable P : platform.
Variable E : environment.
Variable j : job.
Hypothesis Hrev : has_fallback (job_rev j) = true.

(** While the two processes run, the handler only gathers their stderr
    text. *)
Lemma run_in_flight (evs : list event) :
  Forall in_flight evs →
  ∀ w fmt rest y f t,
    run P E w (Converting j fmt rest y f t) evs
    = (fold_left observe evs w,
       Converting j fmt rest (y +:+ ytdl_text P evs) (f +:+ ffmpeg_text P evs) t,
       []).
Proof.
  induction evs as [|e evs IH] using rev_ind; intros Hall w fmt rest y f t.
  - simpl. rewrite !append_empty_r. reflexivity.
  - apply Forall_app in Hall as [Hall He]. inversion He as [|? ? Hfly _]; subst.
    rewrite run_app, (IH Hall). unfold ytdl_text, ffmpeg_text.
    rewrite !fold_left_app. simpl.
    destruct e; simpl in Hfly; try contradiction; simpl; rewrite ?Hrev;
      rewrite ?append_assoc; reflexivity.
Qed.

(** When every attempt fails, each selector is tried once, in order, and
    the answer carries the reports of all of them. *)
Lemma run_all_fail (fmts : list string) :
  ∀ (atts : list attempt) (t : string) (w : world),
    length atts = length fmts →
    Forall (λ a, Forall in_flight (a_during a)) atts →
    all_fail (job_filePath j) w atts = true →
    ∃ w',
      continue P E (next_attempt j fmts t w)
        (concat (map attempt_events atts))
      = (w', Done false,
         (flat_map (attempt_spawns j) fmts
          ++ [ Respond 500
                 (failure_body (job_rev j) (t +:+ reports P fmts atts)) ])%list).
Proof.
  induction fmts as [|fmt fmts IH]; intros atts t w Hlen Hfly Hfail.
  - destruct atts; [|discriminate Hlen]. simpl.
    rewrite append_empty_r. exists w. reflexivity.
  - destruct atts as [|a atts]; [discriminate Hlen|].
    inversion Hfly as [|? ? Ha Hfly']; subst.
    simpl in Hfail. apply andb_true_iff in Hfail as [Hbad Hfail].
    apply negb_true_iff in Hbad. unfold attempt_ok in Hbad.
    injection Hlen as Hlen.
    destruct (IH atts
                (t +:+ attempt_report fmt (ytdl_text P (a_during a))
                         (ffmpeg_text P (a_during a)) (a_code a))
                (cleanup (job_filePath j) (fold_left observe (a_during a) w))
                Hlen Hfly' Hfail) as [w' IHrun].
    exists w'.
    unfold continue in *. simpl next_attempt. simpl map. simpl concat.
    unfold attempt_events at 1. rewrite <- app_assoc, run_app.
    rewrite (run_in_flight _ Ha). simpl app.
    simpl run at 1. unfold on_ffmpeg_close. rewrite Hbad, Hrev.
    simpl reports. rewrite <- append_assoc.
    destruct (next_attempt j fmts _ _) as [[w1 s1] fx1].
    destruct (run P E w1 s1 _) as [[w2 s2] fx2].
    inversion IHrun; subst. reflexivity.
Qed.

End Controller.

Lemma attempt_spawns_selectors (j : job) (fmt : string) :
  selectors (attempt_spawns j fmt) = [ fmt ]
  ∧ filter is_transcode (attempt_spawns j fmt)
    = [ Spawn "ffmpeg" (ffmpegArgs (job_bitrate j) (job_filePath j)) ].
Proof. split; reflexivity. Qed.

(** What one step may add to the selectors tried. *)
Lemma step_pending (P : platform) (E : environment) (w : world) (s : state)
    (e : event) :
  fallback_state s = true →
  (selectors (effects_of (step P E w s e)) = []
   ∧ filter is_transcode (effects_of (step P E w s e)) = []
   ∧ (pending_formats (state_of (step P E w s e)) = pending_formats s
      ∨ pending_formats (state_of (step P E w s e)) = []))
  ∨ (∃ fmt,
       selectors (effects_of (step P E w s e)) = [ fmt ]
       ∧ length (filter is_transcode (effects_of (step P E w s e))) = 1
       ∧ pending_formats s = fmt :: pending_formats (state_of (step P E w s e))).
Proof.
  intros Hs. unfold state_of, effects_of.
  destruct s as [rev q idParam st | j fmt rest y f t | j | k]; simpl in Hs.
  - assert (Hgo : ∀ title,
      (selectors (proceed P E rev q idParam title w).2 = []
       ∧ filter is_transcode (proceed P E rev q idParam title w).2 = []
       ∧ (pending_formats (proceed P E rev q idParam title w).1.2 = formatsToTry
          ∨ pending_formats (proceed P E rev q idParam title w).1.2 = []))
      ∨ (∃ fmt,
           selectors (proceed P E rev q idParam title w).2 = [ fmt ]
           ∧ length (filter is_transcode (proceed P E rev q idParam title w).2)
             = 1
           ∧ formatsToTry
             = fmt :: pending_formats (proceed P E rev q idParam title w).1.2)).
    { intros title. unfold proceed.
      destruct (existsSync (filePath P _) w); destruct rev;
        try discriminate Hs; simpl.
      - left. repeat split. right. reflexivity.
      - left. repeat split. right. reflexivity.
      - right. eexists. repeat split.
      - right. eexists. repeat split. }
    destruct e; cbv beta iota zeta delta [step];
      try (left; repeat split; left; reflexivity);
      (destruct (result (fetch_step P rev st _));
       [left; repeat split; left; reflexivity | apply Hgo ..]).
  - destruct e; simpl; rewrite ?Hs;
      try (left; repeat split; left; reflexivity).
    unfold on_ffmpeg_close.
    destruct (Js.is_zero _ && existsSync _ w);
      [left; repeat split; right; reflexivity|].
    rewrite Hs. unfold next_attempt.
    destruct rest as [|fmt' rest']; simpl.
    + left. repeat split. left. reflexivity.
    + right. exists fmt'. repeat split.
  - destruct e; simpl; rewrite ?Hs;
      try (left; repeat split; left; reflexivity).
    left. unfold on_download_done.
    destruct r as [|hs]; simpl; rewrite ?Hs; simpl;
      repeat split; left; reflexivity.
  - destruct e; simpl; try (left; repeat split; left; reflexivity).
    destruct k; [discriminate Hs | left; repeat split; left; reflexivity].
Qed.

(** The selectors tried in a run are the first ones of the list still
    pending, in its order, with one transcoder per selector. *)
Lemma run_selectors (P : platform) (E : environment) (evs : list event) :
  ∀ (w : world) (s : state),
    fallback_state s = true →
    ∃ n,
      selectors (effects_of (run P E w s evs)) = take n (pending_formats s)
      ∧ length (filter is_transcode (effects_of (run P E w s evs)))
        = length (selectors (effects_of (run P E w s evs))).
Proof.
  induction evs as [|e evs IH]; intros w s Hs; simpl.
  - exists 0. split; reflexivity.
  - pose proof (step_fallback_state P E w s e Hs) as [Hs1 _].
    pose proof (step_pending P E w s e Hs) as Hstep.
    destruct (step P E w s e) as [[w1 s1] fx1].
    destruct (IH w1 s1 Hs1) as (n & Hsel & Hlen).
    destruct (run P E w1 s1 evs) as [[w2 s2] fx2].
    unfold effects_of, state_of, selectors in *. simpl in *.
    rewrite omap_app, filter_app, !length_app.
    destruct Hstep as [(Hnone & Htr & Hpend) | (fmt & Hone & Htr & Hpend)].
    + rewrite Hnone, Htr. simpl. destruct Hpend as [Hsame | Hnil].
      * exists n. rewrite <- Hsame. split; assumption.
      * exists 0. rewrite Hnil in Hsel. rewrite take_nil in Hsel.
        rewrite Hsel in *. split; [reflexivity | exact Hlen].
    + rewrite Hone, Htr, Hpend. exists (S n). simpl.
      rewrite Hsel. split; [reflexivity|]. rewrite <- Hsel, Hlen. reflexivity.
Qed.

(** A new attempt is started only by the step that ends the wait for the
    metadata or by a step at which the transcoder closes. *)
Lemma step_starts (P : platform) (E : environment) (w : world) (s : state)
    (e : event) :
  (length (selectors (effects_of (step P E w s e)))
   + awaiting (state_of (step P E w s e))
   ≤ awaiting s + transcoder_closes [ e ])%nat.
Proof.
  unfold state_of, effects_of.
  destruct s as [rev q idParam st | j fmt rest y f t | j | k].
  - assert (Hgo : ∀ title,
              (length (selectors (proceed P E rev q idParam title w).2)
               + awaiting (proceed P E rev q idParam title w).1.2 ≤ 1)%nat).
    { intros title. unfold proceed.
      destruct (existsSync (filePath P _) w); destruct rev; simpl; lia. }
    destruct e; cbv beta iota zeta delta [step]; try (simpl; lia);
      (destruct (result (fetch_step P rev st _));
       [simpl; lia
       | eapply Nat.le_trans; [apply Hgo | simpl; lia] ..]).
  - destruct e; simpl; try (destruct (has_fallback (job_rev j)); simpl; lia).
    unfold on_ffmpeg_close.
    destruct (Js.is_zero _ && existsSync _ w); [simpl; lia|].
    destruct (has_fallback (job_rev j)); [|simpl; lia].
    destruct rest as [|fmt' rest']; simpl; lia.
  - destruct e; simpl; try (destruct (has_fallback (job_rev j)); simpl; lia).
    unfold on_download_done.
    destruct r as [|hs]; simpl; [lia|].
    destruct (has_fallback (job_rev j) || hs); simpl; lia.
  - destruct e; simpl; try lia. destruct k; simpl; lia.
Qed.

Lemma transcoder_closes_cons (e : event) (evs : list event) :
  transcoder_closes (e :: evs)
  = (transcoder_closes [ e ] + transcoder_closes evs)%nat.
Proof. destruct e; reflexivity. Qed.

(** One attempt at a time: the attempts started in a run are at most one
    more than the times the transcoder has closed. *)
Lemma run_starts (P : platform) (E : environment) (evs : list event) :
  ∀ (w : world) (s : state),
    (length (selectors (effects_of (run P E w s evs)))
     ≤ awaiting s + transcoder_closes evs)%nat.
Proof.
  induction evs as [|e evs IH]; intros w s.
  - simpl. lia.
  - rewrite transcoder_closes_cons. simpl run.
    pose proof (step_starts P E w s e) as Hstep.
    destruct (step P E w s e) as [[w1 s1] fx1].
    specialize (IH w1 s1).
    destruct (run P E w1 s1 evs) as [[w2 s2] fx2].
    unfold effects_of, state_of, selectors in *. simpl in *.
    rewrite omap_app, length_app. lia.
Qed.

(** C1: in the two fallback revisions the controller tries the four
    selectors ['bestaudio[ext=m4a]/bestaudio'],
    ['bestaudio[protocol^=https]/bestaudio'],
    ['bestaudio[ext=webm]/bestaudio'] and ['bestaudio'] in that order, with
    one extraction process and one transcoder per selector and one attempt
    at a time.

    - Every run tries a prefix of the four selectors, starts as many
      transcoders as extractions, and has started at most one attempt more
      than the transcoder has closed.
    - When the output file is not there yet, the first attempt is started
      with the first selector.
    - While an attempt is in flight, the handler gathers the two stderr
      texts and starts and answers nothing.
    - When the transcoder closes with 0 and the file is there, the file is
      sent and no process is started ever after.
    - When it closes otherwise, the section of the attempt is added to the
      diagnostic text; the next selector, if one is left, is started, and
      if none is left the answer is the 500 with the whole text.
    - When all four attempts fail, the run is the eight processes in
      order, then the 500 whose text is the four sections in order, each
      one the line naming its selector, the stderr of the extraction, the
      stderr of the transcoder and the exit code. *)
Theorem fallback_controller (P : platform) (E : environment)
    (rev : revision) :
  has_fallback rev = true →
  let newline := String (ascii_of_nat 10) EmptyString in
  let s1 := "bestaudio[ext=m4a]/bestaudio" in
  let s2 := "bestaudio[protocol^=https]/bestaudio" in
  let s3 := "bestaudio[ext=webm]/bestaudio" in
  let s4 := "bestaudio" in
  let extraction := λ (j : job) (fmt : string),
    Spawn "yt-dlp"
      ([ "-f"; fmt; "-o"; "-" ] ++ job_common j ++ [ job_url j ])%list in
  let transcode := λ (j : job),
    Spawn "ffmpeg"
      [ "-hide_banner"; "-loglevel"; "warning"; "-i"; "pipe:0"; "-vn";
        "-b:a"; job_bitrate j; "-f"; "mp3"; job_filePath j ] in
  let shown := λ (text : string),
    if negb (String.eqb text "") then text else "(none)" in
  let shown_code := λ (code : option Z),
    match code with
    | Some z => NilZero.string_of_int (Z.to_int z)
    | None => "null"
    end in
  let report := λ (fmt y f : string) (code : option Z),
    newline +:+ newline +:+ "--- Attempt format=" +:+ fmt +:+ " ---"
    +:+ newline +:+ newline
    +:+ "yt-dlp stderr:" +:+ newline +:+ shown y +:+ newline +:+ newline
    +:+ "ffmpeg stderr:" +:+ newline +:+ shown f +:+ newline +:+ newline
    +:+ "ffmpeg exit code: " +:+ shown_code code +:+ newline in
  let body := λ (text : string),
    "Conversion failed. Debug info:" +:+ newline +:+ text +:+ newline
    +:+ advice rev text in
  (∀ req w evs,
     (∃ n, selectors (effects_of (handle P E rev req w evs))
           = take n [ s1; s2; s3; s4 ])
     ∧ length (filter is_transcode (effects_of (handle P E rev req w evs)))
       = length (selectors (effects_of (handle P E rev req w evs)))
     ∧ (length (selectors (effects_of (handle P E rev req w evs)))
        ≤ 1 + transcoder_closes evs)%nat)
  ∧ (∀ q idParam title w,
       (filePath P (filename P title idParam q (now w)) ∉ fs w) →
       ∃ j, proceed P E rev q idParam title w
            = (w, Converting j s1 [ s2; s3; s4 ] "" "" "",
               [ extraction j s1; transcode j ])
            ∧ job_rev j = rev
            ∧ job_url j = videoUrl idParam
            ∧ job_filename j = filename P title idParam q (now w)
            ∧ job_filePath j = filePath P (filename P title idParam q (now w)))
  ∧ (∀ j w fmt rest y f t,
       job_rev j = rev →
       (∀ d, step P E w (Converting j fmt rest y f t) (YtdlStderr d)
             = (w, Converting j fmt rest (y +:+ Buffer_toString P d) f t, []))
       ∧ (∀ msg, step P E w (Converting j fmt rest y f t) (YtdlError msg)
                 = (w, Converting j fmt rest
                         (y +:+ "yt-dlp spawn error: " +:+ msg +:+ newline)
                         f t, []))
       ∧ (∀ d, step P E w (Converting j fmt rest y f t) (FfmpegStderr d)
               = (w, Converting j fmt rest y (f +:+ Buffer_toString P d) t,
                  []))
       ∧ (∀ msg, step P E w (Converting j fmt rest y f t) (FfmpegError msg)
                 = (w, Converting j fmt rest y
                         (f +:+ "ffmpeg spawn error: " +:+ msg +:+ newline)
                         t, []))
       ∧ (∀ e, in_flight e →
            spawns (effects_of (step P E w (Converting j fmt rest y f t) e))
            = []
            ∧ filter is_answer
                (effects_of (step P E w (Converting j fmt rest y f t) e)) = []
            ∧ ∃ y' f', state_of (step P E w (Converting j fmt rest y f t) e)
                       = Converting j fmt rest y' f' t)
       ∧ ((job_filePath j ∈ fs w) →
          step P E w (Converting j fmt rest y f t) (FfmpegClose (Some 0%Z))
          = (w, Sending j,
             [ Download (job_filePath j) (Some (job_filename j)) ])
          ∧ ∀ evs, spawns (effects_of (run P E w (Converting j fmt rest y f t)
                                         (FfmpegClose (Some 0%Z) :: evs)))
                   = [])
       ∧ (∀ code, ¬ (code = Some 0%Z ∧ job_filePath j ∈ fs w) →
            step P E w (Converting j fmt rest y f t) (FfmpegClose code)
            = match rest with
              | fmt' :: rest' =>
                  (cleanup (job_filePath j) w,
                   Converting j fmt' rest' "" "" (t +:+ report fmt y f code),
                   [ extraction j fmt'; transcode j ])
              | [] =>
                  (cleanup (job_filePath j) w, Done false,
                   [ Respond 500 (body (t +:+ report fmt y f code)) ])
              end))
  ∧ (∀ j w a1 a2 a3 a4,
       job_rev j = rev →
       Forall in_flight (a_during a1) → Forall in_flight (a_during a2) →
       Forall in_flight (a_during a3) → Forall in_flight (a_during a4) →
       all_fail (job_filePath j) w [ a1; a2; a3; a4 ] = true →
       effects_of
         (continue P E
            (w, Converting j s1 [ s2; s3; s4 ] "" "" "",
             [ extraction j s1; transcode j ])
            (attempt_events a1 ++ attempt_events a2 ++ attempt_events a3
             ++ attempt_events a4))
       = [ extraction j s1; transcode j; extraction j s2; transcode j;
           extraction j s3; transcode j; extraction j s4; transcode j;
           Respond 500
             (body
                (report s1 (ytdl_text P (a_during a1))
                   (ffmpeg_text P (a_during a1)) (a_code a1)
                 +:+ report s2 (ytdl_text P (a_during a2))
                       (ffmpeg_text P (a_during a2)) (a_code a2)
                 +:+ report s3 (ytdl_text P (a_during a3))
                       (ffmpeg_text P (a_during a3)) (a_code a3)
                 +:+ report s4 (ytdl_text P (a_during a4))
                       (ffmpeg_text P (a_during a4)) (a_code a4))) ]).
Proof.
  intros Hrev. cbv beta zeta. split; [|split; [|split]].
  - intros req w evs. unfold handle, start.
    assert (Hdone :
      (∃ n, selectors [ Respond 400 "Missing id" ] = take n formatsToTry)
      ∧ length (filter is_transcode [ Respond 400 "Missing id" ])
        = length (selectors [ Respond 400 "Missing id" ])
      ∧ (length (selectors [ Respond 400 "Missing id" ])
         ≤ 1 + transcoder_closes evs)%nat).
    { split; [exists 0; reflexivity|]. split; [reflexivity | simpl; lia]. }
    destruct (id req) as [idParam|]; [|rewrite run_done; exact Hdone].
    destruct (Js.truthy idParam); [|rewrite run_done; exact Hdone].
    destruct (run_selectors P E evs w
                (AwaitMeta rev (quality req) idParam fetch_init) Hrev)
      as (n & Hsel & Hlen).
    pose proof (run_starts P E evs w
                  (AwaitMeta rev (quality req) idParam fetch_init)) as Hone.
    destruct (run P E w _ evs) as [[w' s'] fx].
    unfold effects_of in *. simpl in *.
    split; [exists n; exact Hsel|]. split; assumption.
  - intros q idParam title w Hout. unfold proceed.
    apply (bool_decide_eq_false_2 _) in Hout. unfold existsSync at 1.
    rewrite Hout.
    destruct rev; [discriminate Hrev | |]; eexists; repeat split.
  - intros j w fmt rest y f t Hj.
    assert (Hfb : has_fallback (job_rev j) = true) by (rewrite Hj; exact Hrev).
    split; [intros d; simpl; rewrite Hfb; reflexivity|].
    split; [intros msg; simpl; rewrite Hfb; reflexivity|].
    split; [intros d; simpl; rewrite Hfb; reflexivity|].
    split; [intros msg; simpl; rewrite Hfb; reflexivity|].
    split; [|split].
    + intros e He. unfold effects_of, state_of.
      destruct e; simpl in He; try contradiction; simpl; rewrite ?Hfb;
        repeat split; eauto.
    + intros Hin. apply (bool_decide_eq_true_2 _) in Hin.
      split.
      * simpl. unfold on_ffmpeg_close, existsSync. rewrite Hin. reflexivity.
      * intros evs. simpl. unfold on_ffmpeg_close, existsSync. rewrite Hin.
        simpl.
        pose proof (run_sending_no_spawn P E j w evs) as Hno.
        destruct (run P E w (Sending j) evs) as [[w' s'] fx]. exact Hno.
    + intros code Hbad. simpl. unfold on_ffmpeg_close.
      assert (Hno : Js.is_zero code && existsSync (job_filePath j) w = false).
      { apply not_true_is_false. intros Hok.
        apply andb_true_iff in Hok as [Hc Hx]. apply Hbad. split.
        - apply is_zero_spec. exact Hc.
        - apply (bool_decide_eq_true_1 _). exact Hx. }
      rewrite Hno, Hfb. unfold next_attempt. rewrite Hj.
      destruct rest as [|fmt' rest']; reflexivity.
  - intros j w a1 a2 a3 a4 Hj H1 H2 H3 H4 Hfail.
    assert (Hfb : has_fallback (job_rev j) = true) by (rewrite Hj; exact Hrev).
    assert (Hfly : Forall (λ a, Forall in_flight (a_during a))
                     [ a1; a2; a3; a4 ])
      by (repeat constructor; assumption).
    destruct (run_all_fail P E j Hfb formatsToTry [ a1; a2; a3; a4 ] "" w
                eq_refl Hfly Hfail) as [w' Hrun].
    simpl concat in Hrun. rewrite app_nil_r in Hrun.
    etransitivity; [exact (f_equal effects_of Hrun)|].
    unfold effects_of. cbn [snd flat_map formatsToTry reports].
    rewrite append_empty_r, Hj. reflexivity.
Qed.

Lemma fallback_controller_witness :
  let j := {| job_rev := RevPart002; job_url := videoUrl "dQw4w9WgXcQ";
              job_bitrate := "320k"; job_filename := "a.mp3";
              job_filePath := "/app/downloads/a.mp3";
              job_common := [ "--no-playlist" ] |} in
  let a1 := {| a_during := [ YtdlStderr "ERROR: unable to download" ];
               a_code := Some 1%Z |} in
  let a2 := {| a_during := [ FfmpegStderr "pipe:0: Invalid data" ];
               a_code := Some 1%Z |} in
  let a3 := {| a_during := [ FileWritten "/app/downloads/a.mp3"; ReqClose ];
               a_code := None |} in
  let a4 := {| a_during := [ FfmpegError "spawn ffmpeg ENOENT" ];
               a_code := Some (-2)%Z |} in
  filter is_respond
    (effects_of
       (continue ref_platform no_cookies
          (empty_world 0,
           Converting j "bestaudio[ext=m4a]/bestaudio"
             [ "bestaudio[protocol^=https]/bestaudio";
               "bestaudio[ext=webm]/bestaudio"; "bestaudio" ] "" "" "",
           [ Spawn "yt-dlp"
               [ "-f"; "bestaudio[ext=m4a]/bestaudio"; "-o"; "-";
                 "--no-playlist";
                 "https://www.youtube.com/watch?v=dQw4w9WgXcQ" ];
             Spawn "ffmpeg"
               [ "-hide_banner"; "-loglevel"; "warning"; "-i"; "pipe:0";
                 "-vn"; "-b:a"; "320k"; "-f"; "mp3";
                 "/app/downloads/a.mp3" ] ])
          (attempt_events a1 ++ attempt_events a2 ++ attempt_events a3
           ++ attempt_events a4)))
  = [ Respond 500
        (String.concat nl
         [
           "Conversion failed. Debug info:";
           "";
           "";
           "--- Attempt format=bestaudio[ext=m4a]/bestaudio ---";
           "";
           "yt-dlp stderr:";
           "ERROR: unable to download";
           "";
           "ffmpeg stderr:";
           "(none)";
           "";
           "ffmpeg exit code: 1";
           "";
           "";
           "--- Attempt format=bestaudio[protocol^=https]/bestaudio ---";
           "";
           "yt-dlp stderr:";
           "(none)";
           "";
           "ffmpeg stderr:";
           "pipe:0: Invalid data";
           "";
           "ffmpeg exit code: 1";
           "";
           "";
           "--- Attempt format=bestaudio[ext=webm]/bestaudio ---";
           "";
           "yt-dlp stderr:";
           "(none)";
           "";
           "ffmpeg stderr:";
           "(none)";
           "";
           "ffmpeg exit code: null";
           "";
           "";
           "--- Attempt format=bestaudio ---";
           "";
           "yt-dlp stderr:";
           "(none)";
           "";
           "ffmpeg stderr:";
           "ffmpeg spawn error: spawn ffmpeg ENOENT";
           "";
           "";
           "ffmpeg exit code: -2";
           "";
           "" ]) ].
Proof.
  intros j a1 a2 a3 a4.
  etransitivity.
  - apply (f_equal (filter is_respond)).
    apply (proj2 (proj2 (proj2
             (fallback_controller ref_platform no_cookies RevPart002 eq_refl)))
             j (empty_world 0) a1 a2 a3 a4 eq_refl).
    + repeat constructor.
    + repeat constructor.
    + repeat constructor.
    + repeat constructor.
    + vm_compute. reflexivity.
  - vm_compute. reflexivity.
Defined.

(** The scenario of the specification: selectors 1 and 2 fail, selector 3
    succeeds; three attempts are made and the fourth selector is never
    tried. *)
Example third_selector_succeeds :
  let r := handle ref_platform no_cookies RevDockerfile
             {| quality := Some "Medium"; id := Some "dQw4w9WgXcQ" |}
             (empty_world 1700000000000)
             [ MetaData (title_doc "Song"); MetaClose (Some 0%Z);
               YtdlStderr "ERROR: Requested format is not available";
               FfmpegClose (Some 1%Z);
               FfmpegClose (Some 1%Z);
               FileWritten "/app/downloads/Song-medium-1700000000000.mp3";
               FfmpegClose (Some 0%Z);
               DownloadDone Sent ] in
  selectors (effects_of r)
  = [ "bestaudio[ext=m4a]/bestaudio"; "bestaudio[protocol^=https]/bestaudio";
      "bestaudio[ext=webm]/bestaudio" ]
  ∧ filter (λ e, negb (is_spawn e)) (effects_of r)
    = [ Download "/app/downloads/Song-medium-1700000000000.mp3"
          (Some "Song-medium-1700000000000.mp3");
        SetTimeout 3600000 "/app/downloads/Song-medium-1700000000000.mp3" ].
Proof. vm_compute. split; reflexivity. Qed.

(** The scenario of the specification: all four attempts fail; the body
    holds four sections, one per selector. *)
Example four_failures_four_sections :
  let r := handle ref_platform no_cookies RevPart002
             {| quality := Some "low"; id := Some "dQw4w9WgXcQ" |}
             (empty_world 1700000000000)
             [ MetaClose (Some 1%Z);
               FfmpegClose (Some 1%Z); FfmpegClose (Some 1%Z);
               FfmpegClose (Some 1%Z); FfmpegClose None ] in
  ∃ body, filter is_respond (effects_of r) = [ Respond 500 body ]
    ∧ Js.contains "--- Attempt format=bestaudio[ext=m4a]/bestaudio ---" body
      = true
    ∧ Js.contains "--- Attempt format=bestaudio[protocol^=https]/bestaudio ---"
        body = true
    ∧ Js.contains "--- Attempt format=bestaudio[ext=webm]/bestaudio ---" body
      = true
    ∧ Js.contains "--- Attempt format=bestaudio ---" body = true
    ∧ Js.contains "ffmpeg exit code: null" body = true.
Proof. eexists. vm_compute. repeat split. Qed.

(** * Further properties of the code *)

(** ** Startup sweep *)

Lemma sweep_entry_lookup (P : platform) (now : Z) (d : gmap string Z)
    (f p : string) :
  sweep_entry P now d f !! p =
  match d !! p with
  | Some m =>
      if bool_decide (p = path_join P (DOWNLOAD_DIR P) f)
         && (now - m >? ONE_HOUR_MS)%Z
      then None else Some m
  | None => None
  end.
Proof.
  unfold sweep_entry.
  destruct (decide (p = path_join P (DOWNLOAD_DIR P) f)) as [->|Hne].
  - rewrite bool_decide_eq_true_2 by reflexivity. simpl.
    destruct (d !! path_join P (DOWNLOAD_DIR P) f) as [m|] eqn:Hd;
      [|exact Hd].
    destruct (now - m >? ONE_HOUR_MS)%Z;
      [apply lookup_delete_eq | exact Hd].
  - rewrite bool_decide_eq_false_2 by exact Hne. simpl.
    destruct (d !! path_join P (DOWNLOAD_DIR P) f) as [m|] eqn:Hd.
    + destruct (now - m >? ONE_HOUR_MS)%Z.
      * rewrite lookup_delete_ne by congruence. destruct (d !! p); reflexivity.
      * destruct (d !! p); reflexivity.
    + destruct (d !! p); reflexivity.
Qed.

Lemma sweep_lookup (P : platform) (now : Z) (files : list string) :
  ∀ (d : gmap string Z) (p : string),
    fold_left (sweep_entry P now) files d !! p =
    match d !! p with
    | Some m =>
        if bool_decide (p ∈ map (path_join P (DOWNLOAD_DIR P)) files)
           && (now - m >? ONE_HOUR_MS)%Z
        then None else Some m
    | None => None
    end.
Proof.
  induction files as [|f files IH]; intros d p; simpl.
  - destruct (d !! p); reflexivity.
  - rewrite IH, sweep_entry_lookup.
    destruct (d !! p) as [m|]; [|reflexivity].
    destruct (decide (p = path_join P (DOWNLOAD_DIR P) f)) as [Heq|Hne].
    + rewrite (bool_decide_eq_true_2 _ Heq).
      rewrite (bool_decide_eq_true_2 (p ∈ _ :: _))
        by (rewrite Heq; apply list_elem_of_here).
      simpl. destruct (now - m >? ONE_HOUR_MS)%Z eqn:Hold; [reflexivity|].
      rewrite Hold, andb_false_r. reflexivity.
    + rewrite (bool_decide_eq_false_2 _ Hne). simpl.
      destruct (decide (p ∈ map (path_join P (DOWNLOAD_DIR P)) files))
        as [Hin|Hout].
      * rewrite (bool_decide_eq_true_2 _ Hin).
        rewrite (bool_decide_eq_true_2 (p ∈ _ :: _))
          by (apply list_elem_of_further; exact Hin).
        reflexivity.
      * rewrite (bool_decide_eq_false_2 _ Hout).
        rewrite (bool_decide_eq_false_2 (p ∈ _ :: _)); [reflexivity|].
        intros Hin. apply elem_of_cons in Hin as [Heq|Hin]; contradiction.
Qed.

(** X1: the startup sweep removes every listed file whose age, measured
    from the start of the sweep, is more than one hour; it keeps every
    file that is at most one hour old, with its time, and every file that
    is not listed; it creates nothing; and when the directory cannot be
    read it changes nothing. *)
Theorem sweep_removes_expired (P : platform) (now : Z) (files : list string)
    (d : gmap string Z) :
  let path f := path_join P (DOWNLOAD_DIR P) f in
  let d' := cleanupOldFiles P now (Some files) d in
  (∀ f m, f ∈ files → d !! path f = Some m → (now - m > ONE_HOUR_MS)%Z →
          d' !! path f = None)
  ∧ (∀ p m, d !! p = Some m → (now - m ≤ ONE_HOUR_MS)%Z → d' !! p = Some m)
  ∧ (∀ p, (∀ f, f ∈ files → p ≠ path f) → d' !! p = d !! p)
  ∧ (∀ p m, d' !! p = Some m → d !! p = Some m)
  ∧ cleanupOldFiles P now None d = d.
Proof.
  intros path d'. subst d'. unfold cleanupOldFiles.
  split; [|split; [|split; [|split]]].
  - intros f m Hf Hd Hold. rewrite sweep_lookup, Hd.
    rewrite bool_decide_eq_true_2
      by (apply list_elem_of_fmap; exists f; split; [reflexivity | exact Hf]).
    apply Z.gtb_gt in Hold. rewrite Hold. reflexivity.
  - intros p m Hd Hfresh. rewrite sweep_lookup, Hd.
    assert (Hno : (now - m >? ONE_HOUR_MS)%Z = false).
    { destruct (now - m >? ONE_HOUR_MS)%Z eqn:Hb; [|reflexivity].
      apply Z.gtb_gt in Hb. lia. }
    rewrite Hno, andb_false_r. reflexivity.
  - intros p Hout. rewrite sweep_lookup.
    destruct (d !! p) as [m|]; [|reflexivity].
    rewrite bool_decide_eq_false_2; [reflexivity|].
    intros Hin. apply list_elem_of_fmap in Hin as (f & Hp & Hf).
    exact (Hout f Hf Hp).
  - intros p m. rewrite sweep_lookup.
    destruct (d !! p) as [m'|]; [|discriminate].
    destruct (bool_decide _ && _); [discriminate | trivial].
  - reflexivity.
Qed.

Lemma sweep_removes_expired_witness :
  let d : gmap string Z :=
    {[ "/app/downloads/old.mp3" := 0%Z;
       "/app/downloads/edge.mp3" := 1000%Z;
       "/app/other.txt" := 0%Z ]} in
  cleanupOldFiles ref_platform 3601000 (Some [ "old.mp3"; "edge.mp3" ]) d
  !! "/app/downloads/old.mp3" = None
  ∧ cleanupOldFiles ref_platform 3601000 (Some [ "old.mp3"; "edge.mp3" ]) d
    !! "/app/downloads/edge.mp3" = Some 1000%Z.
Proof.
  split.
  - apply (proj1 (sweep_removes_expired ref_platform 3601000
                    [ "old.mp3"; "edge.mp3" ]
                    {[ "/app/downloads/old.mp3" := 0%Z;
                       "/app/downloads/edge.mp3" := 1000%Z;
                       "/app/other.txt" := 0%Z ]}) "old.mp3" 0%Z).
    + in_list.
    + vm_compute. reflexivity.
    + vm_compute. reflexivity.
  - apply (proj1 (proj2 (sweep_removes_expired ref_platform 3601000
                    [ "old.mp3"; "edge.mp3" ]
                    {[ "/app/downloads/old.mp3" := 0%Z;
                       "/app/downloads/edge.mp3" := 1000%Z;
                       "/app/other.txt" := 0%Z ]}))).
    + vm_compute. reflexivity.
    + vm_compute. discriminate.
Defined.

(** X2: the result of the sweep does not depend on the order in which the
    entries are handled nor on entries listed twice, and a sweep at a
    later time does all that an earlier one did: running both leaves the
    same directory as running the later one alone. *)
Theorem sweep_order_and_repeat (P : platform) (d : gmap string Z) :
  (∀ now files files',
     (∀ f, f ∈ files ↔ f ∈ files') →
     cleanupOldFiles P now (Some files) d
     = cleanupOldFiles P now (Some files') d)
  ∧ (∀ now1 now2 files,
       (now1 ≤ now2)%Z →
       cleanupOldFiles P now2 (Some files)
         (cleanupOldFiles P now1 (Some files) d)
       = cleanupOldFiles P now2 (Some files) d).
Proof.
  split.
  - intros now files files' Hsame. unfold cleanupOldFiles.
    apply map_eq. intros p. rewrite !sweep_lookup.
    destruct (d !! p) as [m|]; [|reflexivity].
    assert (Hiff : p ∈ map (path_join P (DOWNLOAD_DIR P)) files
                   ↔ p ∈ map (path_join P (DOWNLOAD_DIR P)) files').
    { split; intros Hin; apply list_elem_of_fmap in Hin as (f & Hp & Hf);
        apply list_elem_of_fmap; exists f; (split; [exact Hp|]);
        apply Hsame; exact Hf. }
    rewrite (bool_decide_ext _ _ Hiff). reflexivity.
  - intros now1 now2 files Hle. unfold cleanupOldFiles.
    apply map_eq. intros p. rewrite !sweep_lookup.
    destruct (d !! p) as [m|]; [|reflexivity].
    destruct (bool_decide (p ∈ map (path_join P (DOWNLOAD_DIR P)) files));
      simpl; [|reflexivity].
    destruct (now1 - m >? ONE_HOUR_MS)%Z eqn:H1; [|reflexivity].
    apply Z.gtb_gt in H1.
    assert (H2 : (now2 - m >? ONE_HOUR_MS)%Z = true)
      by (apply Z.gtb_gt; lia).
    rewrite H2. reflexivity.
Qed.

Lemma sweep_order_and_repeat_witness :
  let d : gmap string Z :=
    {[ "/app/downloads/a.mp3" := 0%Z; "/app/downloads/b.mp3" := 5%Z ]} in
  cleanupOldFiles ref_platform 3600003 (Some [ "a.mp3"; "b.mp3" ]) d
  = cleanupOldFiles ref_platform 3600003 (Some [ "b.mp3"; "a.mp3"; "b.mp3" ]) d.
Proof.
  apply (proj1 (sweep_order_and_repeat ref_platform
                  {[ "/app/downloads/a.mp3" := 0%Z;
                     "/app/downloads/b.mp3" := 5%Z ]})).
  intros f. rewrite !elem_of_cons. rewrite elem_of_nil. tauto.
Defined.

(** ** Metadata fetcher, whole traces *)

Lemma fetch_silent (P : platform) (rev : revision) (evs : list event) :
  Forall meta_silent evs →
  ∀ st, fold_left (fetch_step P rev) evs st
        = {| out := out st +:+ meta_output P evs; result := result st |}.
Proof.
  induction evs as [|e evs IH] using rev_ind; intros Hall st.
  - simpl. rewrite append_empty_r. destruct st; reflexivity.
  - apply Forall_app in Hall as [Hall He]. inversion He as [|? ? Hsil _]; subst.
    unfold meta_output. rewrite !fold_left_app, (IH Hall). simpl.
    destruct e; simpl in Hsil; try contradiction; try reflexivity.
    simpl. unfold fetch_on_data. cbn [out result].
    rewrite append_assoc. reflexivity.
Qed.

Lemma meta_output_chunks (P : platform) (chunks : list string) :
  meta_output P (map MetaData chunks)
  = foldr String.append "" (map (Buffer_toString P) chunks).
Proof.
  unfold meta_output.
  assert (Hacc : ∀ acc,
            fold_left (λ acc e, match e with
                                | MetaData chunk =>
                                    acc +:+ Buffer_toString P chunk
                                | _ => acc
                                end) (map MetaData chunks) acc
            = acc +:+ foldr String.append ""
                        (map (Buffer_toString P) chunks)).
  { induction chunks as [|c chunks IH]; intros acc; simpl.
    - rewrite append_empty_r. reflexivity.
    - rewrite IH, append_assoc. reflexivity. }
  apply (Hacc "").
Qed.

Lemma fetch_step_settled (P : platform) (rev : revision) (st : fetch_state)
    (e : event) :
  result st ≠ Pending → result (fetch_step P rev st e) = result st.
Proof.
  intros Hset. destruct e; simpl; try reflexivity;
    destruct (result st); try contradiction; reflexivity.
Qed.

(** X3: when the metadata process closes, the fetch resolves with what
    [JSON.parse] makes of the text gathered from its output, provided the
    exit code is 0 and that text is not empty, and with [null] otherwise.
    The text gathered is, in the order of their arrival, the text that
    [toString()] makes of each chunk taken by itself; what the other
    events of the request bring does not enter it. *)
Theorem fetch_reads_whole_output (P : platform) (rev : revision)
    (evs : list event) (code : option Z) :
  Forall meta_silent evs →
  fetchMetadata P rev (evs ++ [ MetaClose code ])
  = Resolved
      (if Js.is_zero code && Js.truthy (meta_output P evs)
       then default Js.JNull (JSON_parse P (meta_output P evs))
       else Js.JNull)
  ∧ (∀ chunks, evs = map MetaData chunks →
       meta_output P evs
       = foldr String.append "" (map (Buffer_toString P) chunks))
  ∧ (∀ before chunk after,
       evs = (before ++ MetaData chunk :: after)%list →
       meta_output P evs
       = meta_output P before +:+ Buffer_toString P chunk
         +:+ meta_output P after)
  ∧ (∀ before e after,
       evs = (before ++ e :: after)%list →
       (∀ chunk, e ≠ MetaData chunk) →
       meta_output P evs = meta_output P (before ++ after)).
Proof.
  intros Hsil.
  assert (Hacc : ∀ l acc,
            fold_left (λ acc e, match e with
                                | MetaData chunk =>
                                    acc +:+ Buffer_toString P chunk
                                | _ => acc
                                end) l acc
            = acc +:+ meta_output P l).
  { induction l as [|e l IH]; intros acc.
    - simpl. rewrite append_empty_r. reflexivity.
    - unfold meta_output. simpl fold_left. rewrite !IH.
      destruct e; try reflexivity.
      change ("" +:+ Buffer_toString P chunk) with (Buffer_toString P chunk).
      rewrite append_assoc. reflexivity. }
  split; [|split; [|split]].
  - unfold fetchMetadata. rewrite fold_left_app, (fetch_silent P rev evs Hsil).
    simpl. unfold fetch_on_close. simpl.
    change ("" +:+ meta_output P evs) with (meta_output P evs).
    destruct (Js.is_zero code && Js.truthy (meta_output P evs)); [|reflexivity].
    destruct (JSON_parse P (meta_output P evs)); reflexivity.
  - intros chunks ->. apply meta_output_chunks.
  - intros before chunk after ->. unfold meta_output at 1.
    rewrite fold_left_app. simpl. rewrite Hacc.
    fold (meta_output P before). rewrite append_assoc. reflexivity.
  - intros before e after -> He. unfold meta_output.
    rewrite !fold_left_app. simpl.
    destruct e; try reflexivity. destruct (He chunk eq_refl).
Qed.

Lemma fetch_reads_whole_output_witness :
  fetchMetadata ref_platform RevIndex
    ([ MetaData title_open; ReqClose; MetaData "So"; MetaData "ng";
       MetaData title_close ] ++ [ MetaClose (Some 0%Z) ])
  = Resolved (Js.JObj [ ("title", Js.JStr "Song") ]).
Proof.
  apply (proj1 (fetch_reads_whole_output ref_platform RevIndex
                  [ MetaData title_open; ReqClose; MetaData "So";
                    MetaData "ng"; MetaData title_close ] (Some 0%Z)
                  ltac:(repeat constructor))).
Defined.

(** X4: a metadata fetch is settled once: after the first close or
    error, nothing that the process still emits changes its result (on a
    spawn failure the close that follows the error is ignored). *)
Theorem fetch_settles_once (P : platform) (rev : revision)
    (evs more : list event) :
  fetchMetadata P rev evs ≠ Pending →
  fetchMetadata P rev (evs ++ more) = fetchMetadata P rev evs.
Proof.
  unfold fetchMetadata. rewrite fold_left_app.
  generalize (fold_left (fetch_step P rev) evs fetch_init) as st.
  induction more as [|e more IH]; intros st Hset; simpl; [reflexivity|].
  rewrite IH by (rewrite fetch_step_settled; assumption).
  apply fetch_step_settled. exact Hset.
Qed.

Lemma fetch_settles_once_witness :
  fetchMetadata ref_platform RevIndex
    ([ MetaError "spawn yt-dlp ENOENT" ] ++ [ MetaClose (Some (-2)%Z) ])
  = Rejected "spawn yt-dlp ENOENT".
Proof.
  apply (fetch_settles_once ref_platform RevIndex
           [ MetaError "spawn yt-dlp ENOENT" ] [ MetaClose (Some (-2)%Z) ]).
  vm_compute. discriminate.
Defined.

(** X5: as long as the metadata process neither closes nor fails, the
    handler has done nothing but spawn it: the request is not answered,
    no other process is started, and a disconnect is not acted upon. *)
Theorem waits_for_metadata (P : platform) (E : environment) (rev : revision)
    (q : option string) (idParam : string) (w : world) (evs : list event) :
  idParam ≠ "" →
  Forall meta_silent evs →
  handle P E rev {| quality := q; id := Some idParam |} w evs
  = (fold_left observe evs w,
     AwaitMeta rev q idParam {| out := meta_output P evs; result := Pending |},
     [ Spawn "yt-dlp" [ "-j"; "--no-warnings"; videoUrl idParam ] ]).
Proof.
  intros Hid Hsil. unfold handle, start. simpl.
  apply truthy_true in Hid. rewrite Hid.
  assert (Hrun : ∀ st w0,
            result st = Pending →
            run P E w0 (AwaitMeta rev q idParam st) evs
            = (fold_left observe evs w0,
               AwaitMeta rev q idParam
                 {| out := out st +:+ meta_output P evs; result := Pending |},
               [])).
  { clear Hid. induction evs as [|e evs IH] using rev_ind; intros st w0 Hp.
    - simpl. rewrite append_empty_r. destruct st; simpl in *; subst.
      reflexivity.
    - apply Forall_app in Hsil as [Hsil He].
      inversion He as [|? ? Hs _]; subst.
      rewrite run_app, (IH Hsil st w0 Hp). unfold meta_output.
      rewrite !fold_left_app. simpl.
      destruct e; simpl in Hs; try contradiction; simpl; try reflexivity.
      unfold fetch_on_data. cbn [out result].
      rewrite append_assoc. reflexivity. }
  rewrite (Hrun fetch_init w eq_refl). reflexivity.
Qed.

Lemma waits_for_metadata_witness :
  effects_of
    (handle ref_platform no_cookies RevIndex
       {| quality := None; id := Some "dQw4w9WgXcQ" |} (empty_world 0)
       [ MetaData "{"; ReqClose; ClockTick 99999999 ])
  = [ Spawn "yt-dlp"
        [ "-j"; "--no-warnings"; "https://www.youtube.com/watch?v=dQw4w9WgXcQ" ] ].
Proof.
  rewrite (waits_for_metadata ref_platform no_cookies RevIndex None
             "dQw4w9WgXcQ" (empty_world 0)
             [ MetaData "{"; ReqClose; ClockTick 99999999 ]).
  - reflexivity.
  - discriminate.
  - repeat constructor.
Defined.

(** ** File names *)

Lemma length_append (a b : string) :
  String.length (a +:+ b) = String.length a + String.length b.
Proof.
  induction a as [|x a IH]; [reflexivity|].
  change (S (String.length (a +:+ b)) = S (String.length a + String.length b)).
  rewrite IH. reflexivity.
Qed.

Lemma append_inj_r (a b c : string) : a +:+ c = b +:+ c → a = b.
Proof.
  revert b. induction a as [|x a IH]; intros [|y b] H.
  - reflexivity.
  - exfalso. apply (f_equal String.length) in H.
    change (String y b +:+ c) with (String y (b +:+ c)) in H.
    change ("" +:+ c) with c in H.
    simpl in H. rewrite length_append in H. lia.
  - exfalso. apply (f_equal String.length) in H.
    change (String x a +:+ c) with (String x (a +:+ c)) in H.
    change ("" +:+ c) with c in H.
    simpl in H. rewrite length_append in H. lia.
  - change (String x (a +:+ c) = String y (b +:+ c)) in H.
    inversion H; subst. f_equal. apply IH. assumption.
Qed.

Lemma append_inj_l (a b c : string) : a +:+ b = a +:+ c → b = c.
Proof.
  induction a as [|x a IH]; intros H; [exact H|].
  change (String x (a +:+ b) = String x (a +:+ c)) in H.
  inversion H. apply IH. assumption.
Qed.

Lemma of_number_inj (z1 z2 : Z) : Js.of_number z1 = Js.of_number z2 → z1 = z2.
Proof.
  unfold Js.of_number. intros H.
  assert (Hgood : ∀ z, Z.to_int z ≠ Decimal.Pos Decimal.Nil
                       ∧ Z.to_int z ≠ Decimal.Neg Decimal.Nil).
  { intros [|p|p]; simpl; split; try discriminate;
      intros Heq; inversion Heq as [Hnil];
      exact (Unsigned.to_uint_nonnil p Hnil). }
  apply (f_equal NilZero.int_of_string) in H.
  rewrite !NilZero.isi in H by apply Hgood.
  inversion H as [Hint]. apply DecimalZ.to_int_inj. exact Hint.
Qed.

(** X6: with the same title, identifier and quality, two file names are
    equal exactly when the two timestamps are equal: requests handled in
    different milliseconds never share a file, requests handled in the
    same millisecond do. *)
Theorem filename_differs_by_timestamp (P : platform) (title : option string)
    (idParam : string) (q : option string) (ts1 ts2 : Z) :
  filename P title idParam q ts1 = filename P title idParam q ts2 ↔ ts1 = ts2.
Proof.
  split; [|intros ->; reflexivity].
  unfold filename. intros H.
  do 4 apply append_inj_l in H.
  apply append_inj_r in H. apply of_number_inj. exact H.
Qed.

Lemma filename_differs_by_timestamp_witness :
  filename ref_platform None "dQw4w9WgXcQ" (Some "low") 1700000000000
  ≠ filename ref_platform None "dQw4w9WgXcQ" (Some "low") 1700000000001.
Proof.
  intros H.
  apply (proj1 (filename_differs_by_timestamp ref_platform None "dQw4w9WgXcQ"
                  (Some "low") 1700000000000 1700000000001)) in H.
  discriminate H.
Defined.

Lemma chars_append (a b : string) : chars (a +:+ b) = (chars a ++ chars b)%list.
Proof.
  unfold chars. induction a as [|x a IH]; [reflexivity|].
  change (x :: list_ascii_of_string (a +:+ b)
          = x :: (list_ascii_of_string a ++ list_ascii_of_string b)%list).
  rewrite IH. reflexivity.
Qed.

Lemma chars_slice0 (n : nat) (s : string) (c : ascii) :
  c ∈ chars (Js.slice0 n s) → c ∈ chars s.
Proof.
  unfold Js.slice0, chars. revert n.
  induction s as [|x s IH]; intros n; destruct n; simpl; try (intros H; inversion H; fail).
  intros H. apply elem_of_cons in H as [->|H].
  - apply list_elem_of_here.
  - apply list_elem_of_further. exact (IH n H).
Qed.

Lemma chars_of_uint (d : Decimal.uint) :
  "/"%char ∉ chars (NilEmpty.string_of_uint d).
Proof.
  unfold chars. induction d; simpl;
    try (intros H; apply elem_of_cons in H as [H|H];
         [discriminate H | contradiction]).
  intros H. inversion H.
Qed.

Lemma chars_of_number (z : Z) : "/"%char ∉ chars (Js.of_number z).
Proof.
  unfold Js.of_number, NilZero.string_of_int, NilZero.string_of_uint.
  destruct (Z.to_int z) as [d|d].
  - destruct d; try apply chars_of_uint.
    unfold chars. simpl. intros H.
    apply elem_of_cons in H as [H|H]; [discriminate H | inversion H].
  - unfold chars. simpl. intros H.
    apply elem_of_cons in H as [H|H]; [discriminate H|].
    destruct d; try (exact (chars_of_uint _ H)).
    simpl in H. apply elem_of_cons in H as [H|H]; [discriminate H | inversion H].
Qed.

Lemma chars_video_id (s : string) :
  is_video_id s = true → "/"%char ∉ chars s.
Proof.
  unfold is_video_id. intros H. apply andb_true_iff in H as [_ Hall].
  rewrite forallb_forall in Hall. intros Hin.
  apply list_elem_of_In in Hin. specialize (Hall _ Hin). discriminate Hall.
Qed.

Lemma qualityKey_cases (q : option string) :
  qualityKey q ∈ [ "low"; "medium"; "high" ].
Proof.
  unfold qualityKey.
  destruct (Js.includes _ (rawQuality q)) eqn:Hinc.
  - apply includes_elem. exact Hinc.
  - in_list.
Qed.

(** X7: if the sanitizer lets no slash through, the file name holds no
    slash either, whatever the title and the identifier are: an ID-shaped
    identifier is used raw but has no slash, everything else is
    sanitized, and the quality and the timestamp bring none. *)
Theorem filename_has_no_slash (P : platform) (settled : promise)
    (idParam : string) (q : option string) (ts : Z) :
  (∀ s, "/"%char ∉ chars (sanitize P s)) →
  "/"%char ∉ chars (filename P (safeTitle P settled) idParam q ts).
Proof.
  intros Hsan. unfold filename.
  assert (Hbase : "/"%char ∉ chars (base P (safeTitle P settled) idParam)).
  { assert (Hfall : "/"%char ∉ chars (if is_video_id idParam then idParam
                                      else Js.slice0 40 (sanitize P idParam))).
    { destruct (is_video_id idParam) eqn:Hid.
      - apply chars_video_id. exact Hid.
      - intros Hin. apply chars_slice0 in Hin. exact (Hsan _ Hin). }
    rewrite base_spec, safeTitle_spec.
    destruct (metadata_title settled) as [t|]; [|exact Hfall].
    destruct (Js.truthy t); [|exact Hfall].
    destruct (Js.truthy (Js.slice0 120 (sanitize P t))); [|exact Hfall].
    intros Hin. apply chars_slice0 in Hin. exact (Hsan _ Hin). }
  assert (Hkey : "/"%char ∉ chars (qualityKey q)).
  { pose proof (qualityKey_cases q) as Hq.
    rewrite !elem_of_cons in Hq.
    destruct Hq as [-> | [-> | [-> | Hnil]]]; [| | |inversion Hnil];
      intros Hin; apply list_elem_of_In in Hin; simpl in Hin;
      repeat (destruct Hin as [Hin|Hin]; [discriminate Hin|]); exact Hin. }
  rewrite !chars_append, !elem_of_app.
  intros [H | [H | [H | [H | [H | H]]]]].
  - exact (Hbase H).
  - apply list_elem_of_In in H. simpl in H.
    destruct H as [H|H]; [discriminate H | exact H].
  - exact (Hkey H).
  - apply list_elem_of_In in H. simpl in H.
    destruct H as [H|H]; [discriminate H | exact H].
  - exact (chars_of_number ts H).
  - apply list_elem_of_In in H. simpl in H.
    repeat (destruct H as [H|H]; [discriminate H|]). exact H.
Qed.

Lemma chars_filter_string (keep : ascii → bool) (s : string) (c : ascii) :
  c ∈ chars (filter_string keep s) → keep c = true ∧ c ∈ chars s.
Proof.
  unfold chars. induction s as [|x s IH]; simpl; [intros H; inversion H|].
  destruct (keep x) eqn:Hx; simpl.
  - intros H. apply elem_of_cons in H as [->|H].
    + split; [exact Hx | apply list_elem_of_here].
    + destruct (IH H) as [Hk Hin]. split; [exact Hk|].
      apply list_elem_of_further. exact Hin.
  - intros H. destruct (IH H) as [Hk Hin]. split; [exact Hk|].
    apply list_elem_of_further. exact Hin.
Qed.

Lemma chars_strip_trailing (s : string) (c : ascii) :
  c ∈ chars (strip_trailing s) → c ∈ chars s.
Proof.
  unfold chars. induction s as [|x s IH]; simpl; [trivial|].
  destruct (String.eqb (strip_trailing s) "" && _); simpl;
    [intros H; inversion H|].
  intros H. apply elem_of_cons in H as [->|H].
  - apply list_elem_of_here.
  - apply list_elem_of_further. exact (IH H).
Qed.

Lemma sanitize_ref_no_slash (s : string) : "/"%char ∉ chars (sanitize_ref s).
Proof.
  unfold sanitize_ref. intros Hin.
  apply chars_slice0, chars_strip_trailing in Hin.
  destruct (windows_reserved _); [inversion Hin|].
  destruct (only_dots _); [inversion Hin|].
  apply chars_filter_string in Hin as [_ Hin].
  apply chars_filter_string in Hin as [Hkeep _].
  discriminate Hkeep.
Qed.

Lemma filename_has_no_slash_witness :
  "/"%char
  ∉ chars (filename ref_platform
             (safeTitle ref_platform
                (Resolved (Js.JObj [ ("title", Js.JStr "../../etc/passwd") ])))
             "../../x" (Some "high") 1700000000000).
Proof.
  apply (filename_has_no_slash ref_platform
           (Resolved (Js.JObj [ ("title", Js.JStr "../../etc/passwd") ]))
           "../../x" (Some "high") 1700000000000).
  exact sanitize_ref_no_slash.
Defined.

(** ** Advice *)

Lemma prefix_append (p s b : string) :
  String.prefix p s = true → String.prefix p (s +:+ b) = true.
Proof.
  revert s. induction p as [|x p IH]; intros s H.
  - destruct (s +:+ b); reflexivity.
  - destruct s as [|y s]; [discriminate H|].
    change (String y s +:+ b) with (String y (s +:+ b)).
    simpl in *. destruct (ascii_dec x y); [|discriminate H].
    apply IH. exact H.
Qed.

Lemma contains_append_r (p s b : string) :
  Js.contains p s = true → Js.contains p (s +:+ b) = true.
Proof.
  induction s as [|x s IH]; intros H.
  - simpl in H. rewrite orb_false_r in H.
    destruct p as [|y p]; [|discriminate H].
    change ("" +:+ b) with b. destruct b; reflexivity.
  - change (String x s +:+ b) with (String x (s +:+ b)).
    simpl in H. apply orb_true_iff in H as [H|H].
    + pose proof (prefix_append _ (String x s) b H) as Hp.
      change (String x s +:+ b) with (String x (s +:+ b)) in Hp.
      simpl. simpl in Hp. rewrite Hp. reflexivity.
    + simpl. rewrite (IH H). apply orb_true_r.
Qed.

Lemma contains_append_l (p a s : string) :
  Js.contains p s = true → Js.contains p (a +:+ s) = true.
Proof.
  intros H. induction a as [|x a IH]; [exact H|].
  change (String x a +:+ s) with (String x (a +:+ s)).
  simpl. rewrite IH. apply orb_true_r.
Qed.

Lemma toLowerCase_append (a b : string) :
  Js.toLowerCase (a +:+ b) = Js.toLowerCase a +:+ Js.toLowerCase b.
Proof.
  induction a as [|x a IH]; [reflexivity|].
  change (String x a +:+ b) with (String x (a +:+ b)).
  simpl. rewrite IH. reflexivity.
Qed.

Lemma test_ci_l (p a s : string) :
  Js.test_ci p s = true → Js.test_ci p (a +:+ s) = true.
Proof.
  unfold Js.test_ci. rewrite toLowerCase_append. apply contains_append_l.
Qed.

Lemma test_ci_r (p s b : string) :
  Js.test_ci p s = true → Js.test_ci p (s +:+ b) = true.
Proof.
  unfold Js.test_ci. rewrite toLowerCase_append. apply contains_append_r.
Qed.

Lemma or_none_mention (p s : string) :
  Js.test_ci p "" = false → Js.test_ci p s = true → or_none s = s.
Proof.
  intros Hempty Hs. unfold or_none.
  destruct (Js.truthy s) eqn:Ht; [reflexivity|].
  apply truthy_false in Ht. subst s. congruence.
Qed.

(** What an attempt wrote on either stderr shows in its report. *)
Lemma attempt_report_mention (p fmt y f : string) (code : option Z) :
  Js.test_ci p "" = false →
  Js.test_ci p y = true ∨ Js.test_ci p f = true →
  Js.test_ci p (attempt_report fmt y f code) = true.
Proof.
  intros Hempty [Hy|Hf]; unfold attempt_report.
  - rewrite (or_none_mention p y Hempty Hy).
    do 9 apply test_ci_l. apply test_ci_r. exact Hy.
  - rewrite (or_none_mention p f Hempty Hf).
    do 14 apply test_ci_l. apply test_ci_r. exact Hf.
Qed.

Lemma reports_mention (P : platform) (p : string) (fmts : list string) :
  Js.test_ci p "" = false →
  ∀ (atts : list attempt) (a : attempt),
    length atts = length fmts →
    a ∈ atts →
    Js.test_ci p (ytdl_text P (a_during a)) = true
    ∨ Js.test_ci p (ffmpeg_text P (a_during a)) = true →
    Js.test_ci p (reports P fmts atts) = true.
Proof.
  intros Hempty.
  induction fmts as [|fmt fmts IH]; intros atts a Hlen Hin Hm.
  - destruct atts; [inversion Hin | discriminate Hlen].
  - destruct atts as [|b atts]; [inversion Hin|].
    injection Hlen as Hlen. simpl reports.
    apply elem_of_cons in Hin as [->|Hin].
    + apply test_ci_r. apply attempt_report_mention; assumption.
    + apply test_ci_l. apply (IH atts a); assumption.
Qed.

(** X8: when the stderr text of any attempt, extraction or transcoder,
    mentions "Forbidden" or "HTTP Error 403" in any letter case, the
    advice that ends the failure answer starts with the cookies advice;
    when one mentions "Requested format is not available", the advice
    ends with the note on the fallbacks. *)
Theorem stderr_mentions_bring_advice (P : platform) (rev : revision)
    (fmts : list string) (atts : list attempt) (a : attempt) :
  length atts = length fmts →
  a ∈ atts →
  let mentions p :=
    Js.test_ci p (ytdl_text P (a_during a)) = true
    ∨ Js.test_ci p (ffmpeg_text P (a_during a)) = true in
  (mentions "HTTP Error 403" ∨ mentions "Forbidden" →
   ∃ rest, advice rev (reports P fmts atts) = advice403 rev +:+ rest)
  ∧ (mentions "Requested format is not available" →
     ∃ first, advice rev (reports P fmts atts) = first +:+ adviceFormat rev).
Proof.
  intros Hlen Hin mentions. subst mentions. unfold advice. split.
  - intros [Hm|Hm].
    + rewrite (reports_mention P "HTTP Error 403" fmts eq_refl atts a Hlen Hin
                 Hm).
      simpl. eexists. reflexivity.
    + rewrite (reports_mention P "Forbidden" fmts eq_refl atts a Hlen Hin Hm).
      rewrite orb_true_r. eexists. reflexivity.
  - intros Hm.
    rewrite (reports_mention P "Requested format is not available" fmts
               eq_refl atts a Hlen Hin Hm).
    eexists. reflexivity.
Qed.

Lemma stderr_mentions_bring_advice_witness :
  let a := {| a_during := [ YtdlStderr "ERROR: unable to download: ";
                            YtdlStderr "http error 403: FORBIDDEN" ];
              a_code := Some 1%Z |} in
  let b := {| a_during := []; a_code := Some 1%Z |} in
  ∃ rest, advice RevPart002
            (reports ref_platform [ "bestaudio"; "worst" ] [ b; a ])
          = advice403 RevPart002 +:+ rest.
Proof.
  apply (proj1 (stderr_mentions_bring_advice ref_platform RevPart002
                  [ "bestaudio"; "worst" ]
                  [ {| a_during := []; a_code := Some 1%Z |};
                    {| a_during := [ YtdlStderr "ERROR: unable to download: ";
                                     YtdlStderr "http error 403: FORBIDDEN" ];
                       a_code := Some 1%Z |} ]
                  {| a_during := [ YtdlStderr "ERROR: unable to download: ";
                                   YtdlStderr "http error 403: FORBIDDEN" ];
                     a_code := Some 1%Z |}
                  eq_refl ltac:(in_list))).
  left. left. vm_compute. reflexivity.
Defined.

(** ** What a request may do in all *)

Lemma step_await (P : platform) (E : environment) (w : world)
    (rev : revision) (q : option string) (idParam : string)
    (st : fetch_state) (e : event) :
  (∃ w' st', step P E w (AwaitMeta rev q idParam st) e
             = (w', AwaitMeta rev q idParam st', []))
  ∨ (∃ title, step P E w (AwaitMeta rev q idParam st) e
              = proceed P E rev q idParam title w).
Proof.
  destruct e; cbv beta iota zeta delta [step];
    try (left; eexists; eexists; reflexivity);
    (destruct (result (fetch_step P rev st _));
     [left; eexists; eexists; reflexivity
     | right; eexists; reflexivity ..]).
Qed.

Section Measure.

Variable P : platform.
Variable E : environment.
Variable count : effect → bool.
Variable left : state → nat.

Hypothesis step_left : ∀ w s e,
  (length (filter count (effects_of (step P E w s e)))
   + left (state_of (step P E w s e)) ≤ left s)%nat.

(** A quantity that no step lets grow bounds what a whole run emits. *)
Lemma run_left (evs : list event) :
  ∀ w s, (length (filter count (effects_of (run P E w s evs))) ≤ left s)%nat.
Proof.
  induction evs as [|e evs IH]; intros w s; simpl; [lia|].
  pose proof (step_left w s e) as Hstep.
  destruct (step P E w s e) as [[w1 s1] fx1].
  specialize (IH w1 s1).
  destruct (run P E w1 s1 evs) as [[w2 s2] fx2].
  unfold effects_of, state_of in *. simpl in *.
  rewrite filter_app, length_app. lia.
Qed.

End Measure.

Lemma proceed_answers (P : platform) (E : environment) (rev : revision)
    (q : option string) (idParam : string) (title : option string)
    (w : world) :
  (length (filter is_answer (effects_of (proceed P E rev q idParam title w)))
   + answers_left (state_of (proceed P E rev q idParam title w))
   ≤ (if has_fallback rev then 1 else 2))%nat
  ∧ (length (filter is_download
               (effects_of (proceed P E rev q idParam title w)))
     + downloads_left (state_of (proceed P E rev q idParam title w)) ≤ 1)%nat
  ∧ (length (spawns (effects_of (proceed P E rev q idParam title w)))
     + spawns_left (state_of (proceed P E rev q idParam title w))
     ≤ (if has_fallback rev then 2 * length formatsToTry else 2))%nat.
Proof.
  unfold proceed, effects_of, state_of.
  destruct (existsSync (filePath P _) w); destruct rev; simpl;
    repeat split; lia.
Qed.

Lemma step_answers (P : platform) (E : environment) (w : world) (s : state)
    (e : event) :
  (length (filter is_answer (effects_of (step P E w s e)))
   + answers_left (state_of (step P E w s e)) ≤ answers_left s)%nat.
Proof.
  destruct s as [rev q idParam st | j fmt rest y f t | j | k].
  - destruct (step_await P E w rev q idParam st e)
      as [(w' & st' & ->) | (title & ->)].
    + simpl. lia.
    + apply proceed_answers.
  - unfold effects_of, state_of.
    destruct e; simpl; try lia;
      try (destruct (has_fallback (job_rev j)) eqn:Hrev; simpl;
           rewrite ?Hrev; simpl; lia).
    unfold on_ffmpeg_close.
    destruct (Js.is_zero _ && existsSync _ w); simpl;
      [destruct (has_fallback (job_rev j)); simpl; lia|].
    destruct (has_fallback (job_rev j)) eqn:Hrev; simpl; [|lia].
    destruct rest; simpl; rewrite ?Hrev; simpl; lia.
  - unfold effects_of, state_of.
    destruct e; simpl; try lia;
      try (destruct (has_fallback (job_rev j)) eqn:Hrev; simpl;
           rewrite ?Hrev; simpl; lia).
    unfold on_download_done.
    destruct r as [|hs]; simpl;
      destruct (has_fallback (job_rev j)); simpl; try lia.
    destruct hs; simpl; lia.
  - unfold effects_of, state_of.
    destruct e; simpl; try lia. destruct k; simpl; lia.
Qed.

Lemma step_downloads (P : platform) (E : environment) (w : world) (s : state)
    (e : event) :
  (length (filter is_download (effects_of (step P E w s e)))
   + downloads_left (state_of (step P E w s e)) ≤ downloads_left s)%nat.
Proof.
  destruct s as [rev q idParam st | j fmt rest y f t | j | k].
  - destruct (step_await P E w rev q idParam st e)
      as [(w' & st' & ->) | (title & ->)].
    + simpl. lia.
    + apply proceed_answers.
  - unfold effects_of, state_of.
    destruct e; simpl; try lia;
      try (destruct (has_fallback (job_rev j)) eqn:Hrev; simpl;
           rewrite ?Hrev; simpl; lia).
    unfold on_ffmpeg_close.
    destruct (Js.is_zero _ && existsSync _ w); simpl; [lia|].
    destruct (has_fallback (job_rev j)); simpl; [|lia].
    destruct rest; simpl; lia.
  - unfold effects_of, state_of.
    destruct e; simpl; try lia;
      try (destruct (has_fallback (job_rev j)) eqn:Hrev; simpl;
           rewrite ?Hrev; simpl; lia).
    unfold on_download_done.
    destruct r as [|hs]; simpl; [lia|].
    destruct (has_fallback (job_rev j) || hs); simpl; lia.
  - unfold effects_of, state_of.
    destruct e; simpl; try lia. destruct k; simpl; lia.
Qed.

Lemma step_spawns (P : platform) (E : environment) (w : world) (s : state)
    (e : event) :
  (length (filter is_spawn (effects_of (step P E w s e)))
   + spawns_left (state_of (step P E w s e)) ≤ spawns_left s)%nat.
Proof.
  destruct s as [rev q idParam st | j fmt rest y f t | j | k].
  - destruct (step_await P E w rev q idParam st e)
      as [(w' & st' & ->) | (title & ->)].
    + simpl. lia.
    + apply proceed_answers.
  - unfold effects_of, state_of.
    destruct e; simpl; try lia;
      try (destruct (has_fallback (job_rev j)) eqn:Hrev; simpl;
           rewrite ?Hrev; simpl; lia).
    unfold on_ffmpeg_close.
    destruct (Js.is_zero _ && existsSync _ w); simpl; [lia|].
    destruct (has_fallback (job_rev j)) eqn:Hrev; simpl; [|lia].
    destruct rest; simpl; rewrite ?Hrev; simpl; lia.
  - unfold effects_of, state_of.
    destruct e; simpl; try lia;
      try (destruct (has_fallback (job_rev j)) eqn:Hrev; simpl;
           rewrite ?Hrev; simpl; lia).
    unfold on_download_done.
    destruct r as [|hs]; simpl; [lia|].
    destruct (has_fallback (job_rev j) || hs); simpl; lia.
  - unfold effects_of, state_of.
    destruct e; simpl; try lia. destruct k; simpl; lia.
Qed.

Lemma handle_split (P : platform) (E : environment) (rev : revision)
    (req : request) (w : world) (evs : list event) :
  (∃ idParam,
      effects_of (handle P E rev req w evs)
      = (Spawn "yt-dlp" [ "-j"; "--no-warnings"; videoUrl idParam ]
         :: effects_of (run P E w (AwaitMeta rev (quality req) idParam
                                     fetch_init) evs)))
  ∨ effects_of (handle P E rev req w evs) = [ Respond 400 "Missing id" ].
Proof.
  unfold handle, start.
  destruct (id req) as [idParam|]; [|right; rewrite run_done; reflexivity].
  destruct (Js.truthy idParam); [|right; rewrite run_done; reflexivity].
  left. exists idParam.
  destruct (run P E w _ evs) as [[w' s'] fx]. reflexivity.
Qed.

(** X9: a request is answered at most once by a fallback revision and
    at most twice by src/index.js (a file, then an error if the sending
    failed before the headers went out); no revision sends more than one
    file for a request. *)
Theorem answers_are_bounded (P : platform) (E : environment) (rev : revision)
    (req : request) (w : world) (evs : list event) :
  (length (filter is_download (effects_of (handle P E rev req w evs))) ≤ 1)%nat
  ∧ (length (filter is_answer (effects_of (handle P E rev req w evs)))
     ≤ (if has_fallback rev then 1 else 2))%nat.
Proof.
  destruct (handle_split P E rev req w evs) as [[idParam ->] | ->].
  - simpl. split.
    + apply (run_left P E is_download downloads_left (step_downloads P E)).
    + apply (run_left P E is_answer answers_left (step_answers P E) evs w
               (AwaitMeta rev (quality req) idParam fetch_init)).
  - simpl. destruct (has_fallback rev); split; lia.
Qed.

(** X10: a request spawns at most nine processes in a fallback revision
    (the metadata fetch, then an extractor and a transcoder for each of
    the four selectors) and at most three in src/index.js, whatever the
    processes and the caller do. *)
Theorem spawns_are_bounded (P : platform) (E : environment) (rev : revision)
    (req : request) (w : world) (evs : list event) :
  (length (spawns (effects_of (handle P E rev req w evs)))
   ≤ (if has_fallback rev then 9 else 3))%nat.
Proof.
  destruct (handle_split P E rev req w evs) as [[idParam ->] | ->].
  - unfold spawns. simpl.
    pose proof (run_left P E is_spawn spawns_left (step_spawns P E) evs w
                  (AwaitMeta rev (quality req) idParam fetch_init)) as Hrun.
    simpl in Hrun. destruct (has_fallback rev); simpl in *; lia.
  - simpl. destruct (has_fallback rev); lia.
Qed.

(** ** One request, one file *)

Lemma step_follows (P : platform) (E : environment) (w : world) (s : state)
    (e : event) (p : string) :
  follows p s →
  Forall (eq p) (files_of (effects_of (step P E w s e)))
  ∧ follows p (state_of (step P E w s e)).
Proof.
  unfold follows, effects_of, state_of, files_of.
  intros [Hp | [k ->]].
  - destruct s as [rev q idParam st | j fmt rest y f t | j | k];
      simpl in Hp; try discriminate Hp; injection Hp as <-.
    + destruct e; simpl;
        try (split; [constructor | left; reflexivity]);
        try (destruct (has_fallback (job_rev j)); simpl;
             (split; [repeat constructor | left; reflexivity])).
      unfold on_ffmpeg_close.
      destruct (Js.is_zero _ && existsSync _ w); simpl;
        [split; [repeat constructor | left; reflexivity]|].
      destruct (has_fallback (job_rev j)); simpl;
        [|split; [constructor | right; eexists; reflexivity]].
      destruct rest; simpl.
      * split; [constructor | right; eexists; reflexivity].
      * split; [repeat constructor | left; reflexivity].
    + destruct e; simpl;
        try (split; [constructor | left; reflexivity]);
        try (destruct (has_fallback (job_rev j)); simpl;
             (split; [repeat constructor | left; reflexivity])).
      split; [|right; eexists; reflexivity].
      unfold on_download_done. destruct r as [|hs]; simpl;
        [repeat constructor|].
      destruct (has_fallback (job_rev j) || hs); simpl; constructor.
  - destruct e; simpl; try (split; [constructor | right; eexists; reflexivity]).
    destruct k; simpl; (split; [repeat constructor | right; eexists; reflexivity]).
Qed.

Lemma run_follows (P : platform) (E : environment) (p : string)
    (evs : list event) :
  ∀ w s, follows p s →
         Forall (eq p) (files_of (effects_of (run P E w s evs))).
Proof.
  induction evs as [|e evs IH]; intros w s Hs; simpl; [constructor|].
  destruct (step_follows P E w s e p Hs) as [Hfx Hs1].
  destruct (step P E w s e) as [[w1 s1] fx1].
  specialize (IH w1 s1 Hs1).
  destruct (run P E w1 s1 evs) as [[w2 s2] fx2].
  unfold effects_of, state_of, files_of in *. simpl in *.
  rewrite omap_app. apply Forall_app. split; assumption.
Qed.

Lemma proceed_follows (P : platform) (E : environment) (rev : revision)
    (q : option string) (idParam : string) (title : option string)
    (w : world) :
  let p := filePath P (filename P title idParam q (now w)) in
  Forall (eq p) (files_of (effects_of (proceed P E rev q idParam title w)))
  ∧ follows p (state_of (proceed P E rev q idParam title w)).
Proof.
  unfold follows, proceed, effects_of, state_of, files_of.
  destruct (existsSync (filePath P _) w); destruct rev; simpl;
    (split; [repeat constructor|]);
    try (left; reflexivity); right; eexists; reflexivity.
Qed.

Lemma run_await_files (P : platform) (E : environment) (rev : revision)
    (q : option string) (idParam : string) (evs : list event) :
  ∀ w st, ∃ p,
    Forall (eq p)
      (files_of (effects_of (run P E w (AwaitMeta rev q idParam st) evs))).
Proof.
  induction evs as [|e evs IH]; intros w st; simpl.
  - exists "". constructor.
  - destruct (step_await P E w rev q idParam st e)
      as [(w' & st' & ->) | (title & ->)].
    + destruct (IH w' st') as [p Hp]. exists p.
      destruct (run P E w' _ evs) as [[w2 s2] fx2]. exact Hp.
    + destruct (proceed_follows P E rev q idParam title w) as [Hfx Hs].
      exists (filePath P (filename P title idParam q (now w))).
      destruct (proceed P E rev q idParam title w) as [[w1 s1] fx1].
      pose proof (run_follows P E _ evs w1 s1 Hs) as Hrun.
      destruct (run P E w1 s1 evs) as [[w2 s2] fx2].
      unfold effects_of, state_of, files_of in *. simpl in *.
      rewrite omap_app. apply Forall_app. split; assumption.
Qed.

(** X11: everything a request does to a file, it does to one and the
    same path: the output handed to every transcoder, the file sent and
    the file whose deletion is scheduled never differ within a request. *)
Theorem one_request_one_file (P : platform) (E : environment)
    (rev : revision) (req : request) (w : world) (evs : list event)
    (p1 p2 : string) :
  p1 ∈ files_of (effects_of (handle P E rev req w evs)) →
  p2 ∈ files_of (effects_of (handle P E rev req w evs)) →
  p1 = p2.
Proof.
  destruct (handle_split P E rev req w evs) as [[idParam ->] | ->].
  - destruct (run_await_files P E rev (quality req) idParam evs w fetch_init)
      as [p Hp].
    unfold files_of in *. simpl. rewrite Forall_forall in Hp.
    intros H1 H2. rewrite <- (Hp p1 H1). apply Hp. exact H2.
  - simpl. intros H1. inversion H1.
Qed.

Lemma one_request_one_file_witness :
  let r := handle ref_platform no_cookies RevDockerfile
             {| quality := Some "low"; id := Some "dQw4w9WgXcQ" |}
             (empty_world 5)
             [ MetaClose (Some 1%Z); ClockTick 6; FfmpegClose (Some 1%Z);
               FileWritten "/app/downloads/dQw4w9WgXcQ-low-5.mp3";
               FfmpegClose (Some 0%Z); DownloadDone Sent ] in
  files_of (effects_of r)
  = [ "/app/downloads/dQw4w9WgXcQ-low-5.mp3";
      "/app/downloads/dQw4w9WgXcQ-low-5.mp3";
      "/app/downloads/dQw4w9WgXcQ-low-5.mp3";
      "/app/downloads/dQw4w9WgXcQ-low-5.mp3" ]
  ∧ nth 0 (files_of (effects_of r)) "" = nth 3 (files_of (effects_of r)) "".
Proof.
  split; [vm_compute; reflexivity|].
  apply (one_request_one_file ref_platform no_cookies RevDockerfile
           {| quality := Some "low"; id := Some "dQw4w9WgXcQ" |}
           (empty_world 5)
           [ MetaClose (Some 1%Z); ClockTick 6; FfmpegClose (Some 1%Z);
             FileWritten "/app/downloads/dQw4w9WgXcQ-low-5.mp3";
             FfmpegClose (Some 0%Z); DownloadDone Sent ]);
    vm_compute; in_list.
Defined.

(** ** Retention of a converted file *)

Lemma observe_grows (evs : list event) :
  ∀ (w : world) (p : string), p ∈ fs w → p ∈ fs (fold_left observe evs w).
Proof.
  induction evs as [|e evs IH]; intros w p Hin; simpl; [exact Hin|].
  apply IH. destruct e; simpl; try exact Hin.
  apply elem_of_union. right. exact Hin.
Qed.

Lemma disconnect_kills_quiet (evs : list event) :
  filter is_timeout (disconnect_kills evs) = []
  ∧ filter is_spawn (disconnect_kills evs) = []
  ∧ filter is_answer (disconnect_kills evs) = [].
Proof.
  unfold disconnect_kills.
  induction evs as [|e evs IH]; simpl; [repeat split|].
  rewrite !filter_app. destruct IH as (-> & -> & ->).
  destruct e; simpl; repeat split.
Qed.

(** While a file is being sent, the handler only answers a disconnect
    (in src/index.js). *)
Lemma run_sending_quiet (P : platform) (E : environment) (j : job)
    (evs : list event) :
  Forall not_download_done evs →
  ∀ w, run P E w (Sending j) evs
       = (fold_left observe evs w, Sending j,
          if has_fallback (job_rev j) then [] else disconnect_kills evs).
Proof.
  induction evs as [|e evs IH]; intros Hall w; simpl.
  - destruct (has_fallback (job_rev j)); reflexivity.
  - inversion Hall as [|? ? He Hall']; subst.
    destruct e; simpl in He; try contradiction; simpl;
      try (rewrite (IH Hall'); reflexivity).
    destruct (has_fallback (job_rev j)) eqn:Hrev; simpl;
      rewrite (IH Hall'), ?Hrev; reflexivity.
Qed.

(** X12: after a conversion that succeeded, in every revision: when
    the sending ends without error exactly one timer is set, one hour
    long, and its firing removes the converted file and nothing else;
    when the sending fails no timer is set and the file stays on disk.
    No process is started in either case. *)
Theorem converted_file_retention (P : platform) (E : environment) (j : job)
    (w : world) (fmt : string) (rest : list string) (y f t : string)
    (evs : list event) (r : download_result) :
  job_filePath j ∈ fs w →
  Forall not_download_done evs →
  let res := run P E w (Converting j fmt rest y f t)
               (FfmpegClose (Some 0%Z) :: evs ++ [ DownloadDone r ]) in
  filter is_timeout (effects_of res)
  = match r with
    | Sent => [ SetTimeout 3600000 (job_filePath j) ]
    | SendFailed _ => []
    end
  ∧ job_filePath j ∈ fs (world_of res)
  ∧ (∀ p, p ∈ fs (fire (SetTimeout 3600000 (job_filePath j)) (world_of res))
          ↔ p ∈ fs (world_of res) ∧ p ≠ job_filePath j)
  ∧ spawns (effects_of res) = [].
Proof.
  intros Hin Hevs res. subst res. simpl. unfold on_ffmpeg_close.
  rewrite (bool_decide_eq_true_2 _ Hin : existsSync (job_filePath j) w = true).
  simpl. rewrite run_app, (run_sending_quiet P E j evs Hevs). simpl.
  unfold effects_of, world_of, spawns. simpl.
  destruct (disconnect_kills_quiet evs) as (Hkt & Hks & _).
  assert (Hquiet : ∀ c : effect → bool,
            filter c (disconnect_kills evs) = [] →
            filter c (if has_fallback (job_rev j) then []
                      else disconnect_kills evs) = [])
    by (intros c Hc; destruct (has_fallback (job_rev j)); [reflexivity | exact Hc]).
  rewrite app_nil_r, !filter_cons_False by (intros H; exact H).
  rewrite !filter_app, (Hquiet _ Hkt), (Hquiet _ Hks). simpl.
  split; [|split; [|split]].
  - unfold on_download_done. destruct r as [|hs]; simpl; [reflexivity|].
    destruct (has_fallback (job_rev j) || hs); reflexivity.
  - apply observe_grows. exact Hin.
  - intros p. rewrite elem_of_difference, elem_of_singleton. reflexivity.
  - unfold on_download_done. destruct r as [|hs]; simpl; [reflexivity|].
    destruct (has_fallback (job_rev j) || hs); reflexivity.
Qed.

Lemma converted_file_retention_witness :
  let j := {| job_rev := RevIndex; job_url := videoUrl "dQw4w9WgXcQ";
              job_bitrate := "64k"; job_filename := "a.mp3";
              job_filePath := "/app/downloads/a.mp3"; job_common := [] |} in
  let w := {| fs := {[ "/app/downloads/a.mp3" ]}; now := 7 |} in
  filter is_timeout
    (effects_of (run ref_platform no_cookies w
                   (Converting j "bestaudio" [] "" "" "")
                   (FfmpegClose (Some 0%Z)
                    :: [ ReqClose; ClockTick 9 ] ++ [ DownloadDone Sent ])))
  = [ SetTimeout 3600000 "/app/downloads/a.mp3" ].
Proof.
  refine (proj1 (converted_file_retention ref_platform no_cookies
           {| job_rev := RevIndex; job_url := videoUrl "dQw4w9WgXcQ";
              job_bitrate := "64k"; job_filename := "a.mp3";
              job_filePath := "/app/downloads/a.mp3"; job_common := [] |}
           {| fs := {[ "/app/downloads/a.mp3" ]}; now := 7 |}
           "bestaudio" [] "" "" "" [ ReqClose; ClockTick 9 ] Sent _ _)).
  - vm_compute. reflexivity.
  - repeat constructor.
Defined.

(** ** Cancellation in src/index.js *)

Lemma run_index_in_flight (P : platform) (E : environment) (j : job)
    (fmt : string) (rest : list string) (y f t : string) (evs : list event) :
  has_fallback (job_rev j) = false →
  Forall in_flight evs →
  ∀ w, run P E w (Converting j fmt rest y f t) evs
       = (fold_left observe evs w, Converting j fmt rest y f t,
          disconnect_kills evs).
Proof.
  intros Hrev. induction evs as [|e evs IH]; intros Hall w; simpl;
    [reflexivity|].
  inversion Hall as [|? ? He Hall']; subst.
  destruct e; simpl in He; try contradiction; simpl; rewrite ?Hrev;
    rewrite (IH Hall'); reflexivity.
Qed.

(** X13: in src/index.js, when the caller disconnects during the
    conversion, both processes are sent SIGKILL at once (and again at
    every further disconnect event); when the transcoder then closes
    with anything but code 0, the answer is 500 "Conversion failed" and
    whatever the transcoder had written at the path is removed. *)
Theorem index_cancelled_conversion (P : platform) (E : environment) (j : job)
    (w : world) (fmt : string) (rest : list string) (y f t : string)
    (evs : list event) (code : option Z) :
  has_fallback (job_rev j) = false →
  Forall in_flight evs →
  code ≠ Some 0%Z →
  let res := run P E w (Converting j fmt rest y f t)
               (ReqClose :: evs ++ [ FfmpegClose code ]) in
  effects_of res
  = ([ Kill Extractor "SIGKILL"; Kill Transcoder "SIGKILL" ]
     ++ disconnect_kills evs ++ [ Respond 500 "Conversion failed" ])%list
  ∧ (job_filePath j ∉ fs (world_of res))
  ∧ state_of res = Done true.
Proof.
  intros Hrev Hevs Hcode res. subst res.
  assert (Hz : Js.is_zero code = false).
  { destruct (Js.is_zero code) eqn:Hz; [|reflexivity].
    apply is_zero_spec in Hz. contradiction. }
  simpl. rewrite Hrev, run_app.
  rewrite (run_index_in_flight P E j fmt rest y f t evs Hrev Hevs).
  simpl. unfold on_ffmpeg_close. rewrite Hz, Hrev. simpl.
  unfold effects_of, world_of, state_of. simpl.
  split; [reflexivity|]. split; [apply cleanup_removes | reflexivity].
Qed.

Lemma index_cancelled_conversion_witness :
  let j := {| job_rev := RevIndex; job_url := videoUrl "dQw4w9WgXcQ";
              job_bitrate := "64k"; job_filename := "a.mp3";
              job_filePath := "/app/downloads/a.mp3"; job_common := [] |} in
  "/app/downloads/a.mp3"
  ∉ fs (world_of
          (run ref_platform no_cookies (empty_world 0)
             (Converting j "bestaudio" [] "" "" "")
             (ReqClose :: [ FileWritten "/app/downloads/a.mp3" ]
                ++ [ FfmpegClose None ]))).
Proof.
  apply (proj1 (proj2 (index_cancelled_conversion ref_platform no_cookies
           {| job_rev := RevIndex; job_url := videoUrl "dQw4w9WgXcQ";
              job_bitrate := "64k"; job_filename := "a.mp3";
              job_filePath := "/app/downloads/a.mp3"; job_common := [] |}
           (empty_world 0) "bestaudio" [] "" "" ""
           [ FileWritten "/app/downloads/a.mp3" ] None
           eq_refl ltac:(repeat constructor) ltac:(discriminate)))).
Defined.

(** X14: in src/index.js, a file found already there is sent without a
    callback: whatever happens afterwards, no deletion timer is set for
    it, no process is started and nothing else is answered. *)
Theorem index_cache_hit_sets_no_timer (P : platform) (E : environment)
    (q : option string) (idParam : string) (title : option string)
    (w : world) (evs : list event) :
  filePath P (filename P title idParam q (now w)) ∈ fs w →
  let res := continue P E (proceed P E RevIndex q idParam title w) evs in
  effects_of res
  = [ Download (filePath P (filename P title idParam q (now w))) None ]
  ∧ filePath P (filename P title idParam q (now w)) ∈ fs (world_of res).
Proof.
  intros Hin res. subst res. unfold proceed, continue.
  rewrite (bool_decide_eq_true_2 _ Hin
           : existsSync (filePath P (filename P title idParam q (now w))) w
             = true).
  rewrite run_done. unfold effects_of, world_of. simpl.
  split; [reflexivity|]. apply observe_grows. exact Hin.
Qed.

Lemma index_cache_hit_sets_no_timer_witness :
  let w := {| fs := {[ "/app/downloads/dQw4w9WgXcQ-high-5.mp3" ]}; now := 5 |} in
  effects_of (continue ref_platform no_cookies
                (proceed ref_platform no_cookies RevIndex None "dQw4w9WgXcQ"
                   None w)
                [ DownloadDone Sent; ClockTick 3600006 ])
  = [ Download "/app/downloads/dQw4w9WgXcQ-high-5.mp3" None ].
Proof.
  refine (proj1 (index_cache_hit_sets_no_timer ref_platform no_cookies None
                   "dQw4w9WgXcQ" None
                   {| fs := {[ "/app/downloads/dQw4w9WgXcQ-high-5.mp3" ]};
                      now := 5 |}
                   [ DownloadDone Sent; ClockTick 3600006 ] _)).
  vm_compute. reflexivity.
Defined.

(** ** Cookies written at startup *)

(** X15: in src/unnamed/part_002, when COOKIES_CONTENT is not empty and
    could be written at startup and USE_COOKIES lowercases to [true],
    every request handled later passes [--cookies] with the cookies file
    to its extraction processes: the path written at startup is the path
    tested when the request is handled.  Without content, or when the
    write fails, startup leaves the disk as it was. *)
Theorem cookies_written_at_startup (P : platform) (E : environment)
    (content : string) (w0 : world) (evs : list event)
    (q : option string) (idParam : string) (title : option string) :
  content ≠ "" →
  Js.toLowerCase (Js.or_else (USE_COOKIES E) "") = "true" →
  let w := fold_left observe evs (write_cookies P E (Some content) true w0) in
  (∀ j fmt,
     job_of (state_of (proceed P E RevPart002 q idParam title w)) = Some j →
     attempt_spawns j fmt
     = [ Spawn "yt-dlp"
           ([ "-f"; fmt; "-o"; "-" ]
            ++ commonYtdlArgs_declared RevPart002
            ++ [ "--cookies"; Js.or_else (COOKIES_FILE E) "./cookies.txt" ]
            ++ [ videoUrl idParam ]);
         Spawn "ffmpeg" (ffmpegArgs (job_bitrate j) (job_filePath j)) ])
  ∧ write_cookies P E None true w0 = w0
  ∧ write_cookies P E (Some "") true w0 = w0
  ∧ write_cookies P E (Some content) false w0 = w0.
Proof.
  intros Hcontent Huse w.
  assert (Hthere : cookiesPath P E ∈ fs w).
  { subst w. apply observe_grows. unfold write_cookies. simpl.
    apply truthy_true in Hcontent. rewrite Hcontent. simpl.
    apply elem_of_union. left. apply elem_of_singleton. reflexivity. }
  assert (Hcommon : commonYtdlArgs P E RevPart002 w
                    = (commonYtdlArgs_declared RevPart002
                       ++ [ "--cookies"; cookiesFile E ])%list).
  { unfold commonYtdlArgs, useCookies, existsSync.
    rewrite Huse, (bool_decide_eq_true_2 _ Hthere). reflexivity. }
  split; [|split; [|split]].
  - intros j fmt. unfold proceed, state_of, attempt_spawns.
    destruct (existsSync (filePath P _) w); simpl;
      intros Hj; inversion Hj; subst; simpl; rewrite Hcommon;
      unfold ytdlArgs, cookiesFile; rewrite <- !app_assoc; reflexivity.
  - reflexivity.
  - reflexivity.
  - unfold write_cookies. rewrite andb_false_r. reflexivity.
Qed.

Lemma cookies_written_at_startup_witness :
  match
    job_of
      (state_of
         (proceed ref_platform with_cookies RevPart002 None "dQw4w9WgXcQ" None
            (fold_left observe [ ClockTick 5 ]
               (write_cookies ref_platform with_cookies
                  (Some "# Netscape HTTP Cookie File") true (empty_world 0)))))
  with
  | Some j =>
      attempt_spawns j "bestaudio"
      = [ Spawn "yt-dlp"
            ([ "-f"; "bestaudio"; "-o"; "-" ]
             ++ commonYtdlArgs_declared RevPart002
             ++ [ "--cookies"; "./cookies.txt" ]
             ++ [ "https://www.youtube.com/watch?v=dQw4w9WgXcQ" ]);
          Spawn "ffmpeg" (ffmpegArgs (job_bitrate j) (job_filePath j)) ]
  | None => False
  end.
Proof.
  pose proof (proj1 (cookies_written_at_startup ref_platform with_cookies
                       "# Netscape HTTP Cookie File" (empty_world 0)
                       [ ClockTick 5 ] None "dQw4w9WgXcQ" None
                       ltac:(discriminate) eq_refl)) as H.
  destruct (job_of _) as [j|] eqn:Hj.
  - exact (H j "bestaudio" eq_refl).
  - vm_compute in Hj. discriminate Hj.
Defined.

(** ** The URL handed to the extraction tool *)

Lemma prefix_cons (a b : ascii) (p s : string) :
  String.prefix (String a p) (String b s)
  = if ascii_dec a b then String.prefix p s else false.
Proof. reflexivity. Qed.

Lemma last_ytdlArgs (fmt : string) (common : list string) (url : string) :
  last (ytdlArgs fmt common url) = Some url.
Proof.
  unfold ytdlArgs. rewrite app_assoc. apply last_snoc.
Qed.

Lemma attempt_spawns_urls (j : job) (fmt : string) :
  urls_of (attempt_spawns j fmt) = [ job_url j ].
Proof.
  pose proof (last_ytdlArgs fmt (job_common j) (job_url j)) as Hl.
  unfold urls_of, attempt_spawns.
  generalize dependent (ytdlArgs fmt (job_common j) (job_url j)).
  intros args Hl. simpl. rewrite Hl. reflexivity.
Qed.

Lemma step_follows_url (P : platform) (E : environment) (w : world)
    (s : state) (e : event) (u : string) :
  follows_url u s →
  Forall (eq u) (urls_of (effects_of (step P E w s e)))
  ∧ follows_url u (state_of (step P E w s e)).
Proof.
  unfold follows_url, effects_of, state_of.
  intros [Hu | [k ->]].
  - destruct s as [rev q idParam st | j fmt rest y f t | j | k];
      simpl in Hu; try discriminate Hu; injection Hu as <-.
    + destruct e; simpl;
        try (split; [constructor | left; reflexivity]);
        try (destruct (has_fallback (job_rev j)); simpl;
             (split; [repeat constructor | left; reflexivity])).
      unfold on_ffmpeg_close.
      destruct (Js.is_zero _ && existsSync _ w); simpl;
        [split; [repeat constructor | left; reflexivity]|].
      destruct (has_fallback (job_rev j)); simpl;
        [|split; [constructor | right; eexists; reflexivity]].
      destruct rest as [|fmt' rest']; simpl next_attempt.
      * split; [constructor | right; eexists; reflexivity].
      * cbn [fst snd]. rewrite attempt_spawns_urls.
        split; [repeat constructor | left; reflexivity].
    + destruct e; simpl;
        try (split; [constructor | left; reflexivity]);
        try (destruct (has_fallback (job_rev j)); simpl;
             (split; [repeat constructor | left; reflexivity])).
      split; [|right; eexists; reflexivity].
      unfold on_download_done. destruct r as [|hs]; simpl;
        [repeat constructor|].
      destruct (has_fallback (job_rev j) || hs); simpl; constructor.
  - destruct e; simpl; try (split; [constructor | right; eexists; reflexivity]).
    destruct k; simpl; (split; [repeat constructor | right; eexists; reflexivity]).
Qed.

Lemma run_follows_url (P : platform) (E : environment) (u : string)
    (evs : list event) :
  ∀ w s, follows_url u s →
         Forall (eq u) (urls_of (effects_of (run P E w s evs))).
Proof.
  induction evs as [|e evs IH]; intros w s Hs; simpl; [constructor|].
  destruct (step_follows_url P E w s e u Hs) as [Hfx Hs1].
  destruct (step P E w s e) as [[w1 s1] fx1].
  specialize (IH w1 s1 Hs1).
  destruct (run P E w1 s1 evs) as [[w2 s2] fx2].
  unfold effects_of, state_of, urls_of in *. simpl in *.
  rewrite omap_app. apply Forall_app. split; assumption.
Qed.

Lemma proceed_follows_url (P : platform) (E : environment) (rev : revision)
    (q : option string) (idParam : string) (title : option string)
    (w : world) :
  Forall (eq (videoUrl idParam))
    (urls_of (effects_of (proceed P E rev q idParam title w)))
  ∧ follows_url (videoUrl idParam)
      (state_of (proceed P E rev q idParam title w)).
Proof.
  unfold follows_url, proceed, effects_of, state_of.
  destruct (existsSync (filePath P _) w); destruct rev;
    simpl next_attempt; cbn [fst snd]; rewrite ?attempt_spawns_urls; simpl;
    (split; [repeat constructor|]);
    try (left; reflexivity); right; eexists; reflexivity.
Qed.

Lemma run_await_urls (P : platform) (E : environment) (rev : revision)
    (q : option string) (idParam : string) (evs : list event) :
  ∀ w st,
    Forall (eq (videoUrl idParam))
      (urls_of (effects_of (run P E w (AwaitMeta rev q idParam st) evs))).
Proof.
  induction evs as [|e evs IH]; intros w st; simpl; [constructor|].
  destruct (step_await P E w rev q idParam st e)
    as [(w' & st' & ->) | (title & ->)].
  - specialize (IH w' st').
    destruct (run P E w' _ evs) as [[w2 s2] fx2]. exact IH.
  - destruct (proceed_follows_url P E rev q idParam title w) as [Hfx Hs].
    destruct (proceed P E rev q idParam title w) as [[w1 s1] fx1].
    pose proof (run_follows_url P E _ evs w1 s1 Hs) as Hrun.
    destruct (run P E w1 s1 evs) as [[w2 s2] fx2].
    unfold effects_of, state_of, urls_of in *. simpl in *.
    rewrite omap_app. apply Forall_app. split; assumption.
Qed.

(** X16: the last argument of every yt-dlp process of a request, the
    metadata fetch and every extraction, is the resolved URL of the
    identifier, and that URL starts with "http": whatever the identifier
    is, the tool cannot read it as an option. *)
Theorem identifier_is_never_an_option (P : platform) (E : environment)
    (rev : revision) (q : option string) (idParam : string) (w : world)
    (evs : list event) (u : string) :
  u ∈ urls_of (effects_of
                 (handle P E rev {| quality := q; id := Some idParam |} w evs)) →
  u = videoUrl idParam
  ∧ String.prefix "http" u = true
  ∧ String.prefix "-" u = false.
Proof.
  intros Hin.
  assert (Hu : u = videoUrl idParam).
  { unfold handle, start in Hin. simpl in Hin.
    destruct (Js.truthy idParam).
    - pose proof (run_await_urls P E rev q idParam evs w fetch_init) as Hall.
      destruct (run P E w (AwaitMeta rev q idParam fetch_init) evs)
        as [[w' s'] fx].
      unfold effects_of, urls_of in *. simpl in *.
      apply elem_of_cons in Hin as [Hin|Hin]; [exact Hin|].
      rewrite Forall_forall in Hall. symmetry. apply Hall. exact Hin.
    - rewrite run_done in Hin. inversion Hin. }
  subst u. split; [reflexivity|]. split; [apply videoUrl_starts_http|].
  pose proof (videoUrl_starts_http idParam) as Hp.
  destruct (videoUrl idParam) as [|c s]; [discriminate Hp|].
  rewrite prefix_cons in *.
  destruct (ascii_dec "h" c) as [<-|]; [|discriminate Hp].
  destruct (ascii_dec "-" "h") as [Heq|_]; [discriminate Heq | reflexivity].
Qed.

Lemma identifier_is_never_an_option_witness :
  String.prefix "-"
    (nth 1
       (urls_of
          (effects_of
             (handle ref_platform no_cookies RevIndex
                {| quality := None; id := Some "--exec=rm" |} (empty_world 0)
                [ MetaClose (Some 1%Z) ]))) "") = false.
Proof.
  refine (proj2 (proj2 (identifier_is_never_an_option ref_platform no_cookies
                          RevIndex None "--exec=rm" (empty_world 0)
                          [ MetaClose (Some 1%Z) ] _ _))).
  vm_compute. in_list.
Defined.
